(** * Evaldown: snippet extraction, pairing, evaluation guard and console capture

    A shallow embedding of the parts of the evaldown sources that the
    specification talks about, followed by the theorems that settle each
    statement of the specification against the embedding.

    - [JS]               : the fragment of JavaScript values the code inspects;
    - [InspectedConsole] : lib/InspectedConsole.js;
    - [Evaldown]         : lib/Evaldown.js (extension validation, batch run);
    - [ExtractSnippets]  : the fence/flag extractor exercised by the
                           extractSnippets test-suite;
    - [Snippets]         : the collection exercised by the Snippets test-suite;
    - [ConsoleObject]    : the constructor of lib/InspectedConsole.js and the
                           methods it installs;
    - [EvaldownConstructor], [EvaldownHosts] : the constructor of
                           lib/Evaldown.js, and hosts to run its methods on. *)

From Stdlib Require Import String Ascii List ZArith NArith Lia Bool.
From stdpp Require Import base option gmap strings.
Import ListNotations.

Local Open Scope string_scope.
Local Open Scope list_scope.

(** String concatenation unfolds on a constructor, as list concatenation
    does. *)
#[local] Arguments String.append !s1 s2 : simpl nomatch.

(** ** JavaScript values *)

Module JS.

(** The values the modelled code distinguishes with [typeof] and with
    truthiness tests.  Numbers are restricted to integers, objects are
    association lists of fields, functions are named opaque closures. *)
#[warnings="-register-all"] Inductive value : Type :=
| Undefined
| Null
| Bool (b : bool)
| Num (z : Z)
| Str (s : string)
| RegExp (source : string)
| Obj (fields : list (string * value))
| Fun (name : string).

Definition typeof (v : value) : string :=
  match v with
  | Undefined => "undefined"
  | Null => "object"
  | Bool _ => "boolean"
  | Num _ => "number"
  | Str _ => "string"
  | RegExp _ => "object"
  | Obj _ => "object"
  | Fun _ => "function"
  end.

(** ToBoolean. *)
Definition truthy (v : value) : bool :=
  match v with
  | Undefined | Null => false
  | Bool b => b
  | Num z => negb (z =? 0)%Z
  | Str s => negb (String.eqb s "")
  | RegExp _ | Obj _ | Fun _ => true
  end.

(** [a && b]: the left operand when it is falsy, the right one otherwise. *)
Definition and (a b : value) : value := if truthy a then b else a.

(** [a === b] on two strings. *)
Definition strict_eq_str (a b : string) : value := Bool (String.eqb a b).

End JS.

(** ** lib/InspectedConsole.js *)

(** Strings are sequences of code units; the model keeps the code units
    below 256, which include every one the escaping rewrites. *)

Module InspectedConsole.

(** The two sinks a console method is bound to. *)
Inductive stream : Type := stdout | stderr.

Definition is_stderr (out : stream) : bool :=
  match out with stderr => true | stdout => false end.

(** The two magicpen styles [stringToOutput] selects between. *)
Inductive style : Type := jsString | errorStyle.

(** A magicpen output: the sequence of things appended to it.  What the
    external [inspect] appends is kept symbolic, as the inspected value
    together with the depth it was called with. *)
Inductive entry : Type :=
| Styled (st : style) (text : string)
| Nl
| Inspected (v : JS.value) (depth : nat).

Definition pen : Type := list entry.

(** [expect.output]: the empty pen every output is cloned from. *)
Definition expect_output : pen := [].

(** [pen.clone()] yields a fresh pen with the same styles and no content. *)
Definition clone (_ : pen) : pen := [].

Definition append (o : pen) (other : pen) : pen := o ++ other.
Definition nl (o : pen) : pen := o ++ [Nl].

(** [expect.inspect(value, depth)]. *)
Definition inspect (v : JS.value) (depth : nat) : pen := [Inspected v depth].

(** *** String.prototype.replace with a one-character class and a callback *)

Fixpoint replace_class (class : ascii -> bool) (fn : ascii -> string)
         (content : string) : string :=
  match content with
  | EmptyString => EmptyString
  | String c rest =>
      (if class c then fn c else String c EmptyString)
        ++ replace_class class fn rest
  end.

Definition charCode (c : ascii) : N := N_of_ascii c.

Definition LF : ascii := "010"%char.
Definition CR : ascii := "013"%char.
Definition TAB : ascii := "009"%char.
Definition BS : ascii := "008"%char.
Definition FF : ascii := "012"%char.
Definition backslash : ascii := "\"%char.
Definition quote : ascii := "'"%char.

(** The class [[\\\x00-\x1f']]. *)
Definition escaped_class (c : ascii) : bool :=
  Ascii.eqb c backslash || (charCode c <=? 31)%N || Ascii.eqb c quote.

Definition hexDigit (d : N) : ascii :=
  match d with
  | 0 => "0" | 1 => "1" | 2 => "2" | 3 => "3" | 4 => "4" | 5 => "5"
  | 6 => "6" | 7 => "7" | 8 => "8" | 9 => "9" | 10 => "a" | 11 => "b"
  | 12 => "c" | 13 => "d" | 14 => "e" | _ => "f"
  end%N%char.

Fixpoint toString16_aux (fuel : nat) (n : N) (acc : string) : string :=
  match fuel with
  | O => acc
  | S fuel' =>
      let acc' := String (hexDigit (n mod 16)) acc in
      if (n / 16 =? 0)%N then acc' else toString16_aux fuel' (n / 16) acc'
  end.

(** [n.toString(16)] for a non-negative integer. *)
Definition toString16 (n : N) : string :=
  toString16_aux (S (N.to_nat (N.log2 n))) n "".

(** The callback handed to [replace]. *)
Definition escape_match (m : ascii) : string :=
  if Ascii.eqb m LF then String backslash "n"
  else if Ascii.eqb m CR then String backslash "r"
  else if Ascii.eqb m quote then String backslash "'"
  else if Ascii.eqb m backslash then String backslash (String backslash "")
  else if Ascii.eqb m TAB then String backslash "t"
  else if Ascii.eqb m BS then String backslash "b"
  else if Ascii.eqb m FF then String backslash "f"
  else
    let code := charCode m in
    String backslash "x" ++ (if (code <? 16)%N then "0" else "")
      ++ toString16 code.

Definition escape (content : string) : string :=
  replace_class escaped_class escape_match content.

Definition stringToOutput (content : string) (output : pen) (isError : bool)
  : pen :=
  let output := clone output in
  let stringStyle := if isError then errorStyle else jsString in
  let appendString (o : pen) (str : string) : pen :=
    o ++ [Styled stringStyle str] in
  let output := appendString output "'" in
  let output := appendString output (escape content) in
  let output := appendString output "'" in
  output.

(** *** The console object *)

(** [this[symbols.output]]: the recorded lines, oldest first. *)
Record console : Type := { output : list pen }.

Definition new : console := {| output := [] |}.

Definition isEmpty (c : console) : bool :=
  match output c with [] => true | _ => false end.

Definition reset (_ : console) : console := {| output := [] |}.

(** [this[symbols.line](out, value)]. *)
Definition line (out : stream) (value : JS.value) (c : console) : console :=
  let value' :=
    match value with
    | JS.Str s => stringToOutput s expect_output (is_stderr out)
    | _ => inspect value 6
    end in
  {| output := output c ++ [value'] |}.

(** [function(first, ...rest)], called with the argument list [args]:
    a missing first argument is [undefined], [rest] is what follows it. *)
Definition makeBoundConsoleMethod (out : stream) (args : list JS.value)
           (con : console) : console :=
  let first := hd JS.Undefined args in
  let rest := tl args in
  match first with
  | JS.Str _ => line out first con
  | _ => fold_left (fun c obj => line out obj c) (first :: rest) con
  end.

Definition log := makeBoundConsoleMethod stdout.
Definition info := makeBoundConsoleMethod stdout.
Definition warn := makeBoundConsoleMethod stderr.
Definition error := makeBoundConsoleMethod stderr.

(** [noopMethod], installed for every other console function. *)
Definition noopMethod (_ : list JS.value) (con : console) : console := con.

(** *** Serialization in the text format *)

Section Serialization.

(** The text the external inspection facility prints for a value. *)
Variable inspectText : JS.value -> nat -> string.

Definition entry_toString (e : entry) : string :=
  match e with
  | Styled _ text => text
  | Nl => String LF ""
  | Inspected v depth => inspectText v depth
  end.

Definition pen_toString (o : pen) : string :=
  String.concat "" (map entry_toString o).

(** [this[symbols.toString](format)]. *)
Definition toString (c : console) : string :=
  let lines := output c in
  match lines with
  | [] => ""
  | first_line :: remainingLines =>
      let out := clone expect_output in
      let out := append out first_line in
      let out :=
        fold_left (fun o l => append (nl o) l) remainingLines out in
      pen_toString out
  end.

End Serialization.

(** *** The escapes in the words of the specification *)

(** The escape of one character: the
    named characters get their letter, the remaining control characters
    two hexadecimal digits, everything else is itself. *)
Definition escape_letter (c : ascii) : option ascii :=
  if Ascii.eqb c backslash then Some backslash
  else if Ascii.eqb c quote then Some quote
  else if Ascii.eqb c LF then Some "n"%char
  else if Ascii.eqb c CR then Some "r"%char
  else if Ascii.eqb c TAB then Some "t"%char
  else if Ascii.eqb c BS then Some "b"%char
  else if Ascii.eqb c FF then Some "f"%char
  else None.

Definition literal_escape (c : ascii) : string :=
  match escape_letter c with
  | Some letter => String backslash (String letter "")
  | None =>
      if (charCode c <? 32)%N then
        String backslash
          (String "x" (String (hexDigit (charCode c / 16))
                              (String (hexDigit (charCode c mod 16)) "")))
      else String c ""
  end.

Fixpoint literal_escape_all (s : string) : string :=
  match s with
  | EmptyString => EmptyString
  | String c rest => literal_escape c ++ literal_escape_all rest
  end.

(** What [line] records for one value. *)
Definition recorded_line (out : stream) (v : JS.value) : pen :=
  match v with
  | JS.Str s => stringToOutput s expect_output (is_stderr out)
  | _ => inspect v 6
  end.

End InspectedConsole.

(** ** lib/Evaldown.js *)

Module Evaldown.

Definition DEFAULT_SOURCE_EXTENSION : string := ".md".

(** The entries of [formats]; [generateOutput] is kept by name, see
    [generateOutput] in section [Batch]. *)
Record format : Type :=
  { defaultExtension : string; magicpenFormat : string }.

Definition formats (name : string) : option format :=
  if String.eqb name "html" then
    Some {| defaultExtension := ".html"; magicpenFormat := "html" |}
  else if String.eqb name "inlined" then
    Some {| defaultExtension := ".md"; magicpenFormat := "html" |}
  else if String.eqb name "markdown" then
    Some {| defaultExtension := ".md"; magicpenFormat := "text" |}
  else None.

(** The source text of the regular expression literal in
    [isValidExtension]. *)
Definition extension_pattern : string := "^\.([a-z]\.)*[a-z]".

(** [typeof ext === "string" && /^\.([a-z]\.)*[a-z]/] *)
Definition isValidExtension (ext : JS.value) : JS.value :=
  JS.and (JS.strict_eq_str (JS.typeof ext) "string")
         (JS.RegExp extension_pattern).

(** The constructor's "extension handling" assignments. *)
Definition resolve_sourceExtension (sourceExtension : JS.value) : JS.value :=
  if JS.truthy (isValidExtension sourceExtension)
  then sourceExtension
  else JS.Str DEFAULT_SOURCE_EXTENSION.

Definition resolve_targetExtension (fmt : format) (targetExtension : JS.value)
  : JS.value :=
  if JS.truthy (isValidExtension targetExtension)
  then targetExtension
  else JS.Str (defaultExtension fmt).

(** The fields of an instance that the file-processing methods read.  The
    four paths are whatever the options held: the constructor stores them
    without looking at them. *)
Record evaldown : Type :=
  { capture : string;
    formatName : string;
    marker : string;
    preamble : option string;
    inplace : bool;
    update : bool;
    requirePath : JS.value;
    sourcePath : JS.value;
    targetPath : JS.value;
    tsconfigPath : JS.value;
    sourceExtension : string;
    targetExtension : string;
    fileGlobals : list (string * JS.value) }.

(** Truthiness of [this.targetPath]. *)
Definition targetPath_truthy (ev : evaldown) : bool :=
  JS.truthy (targetPath ev).

Section Batch.

(** Everything outside the process that the methods touch: the file
    system and whatever evaluating a document changes. *)
Variable world : Type.
(** Thrown values. *)
Variable exn : Type.

(** How an awaited call ends. *)
Inductive completion (A : Type) : Type :=
| Fulfilled (a : A)
| RejectedWith (e : exn).
Arguments Fulfilled {A} a.
Arguments RejectedWith {A} e.

(** An async function body: runs against the world, ends one way or the
    other, and leaves the world as it made it. *)
Definition promise (A : Type) : Type := world -> completion A * world.

Definition ret {A} (a : A) : promise A := fun w => (Fulfilled a, w).
Definition throw {A} (e : exn) : promise A := fun w => (RejectedWith e, w).
Definition bind {A B} (m : promise A) (k : A -> promise B) : promise B :=
  fun w =>
    match m w with
    | (Fulfilled a, w') => k a w'
    | (RejectedWith e, w') => (RejectedWith e, w')
    end.
Definition try_catch {A} (body : promise A) (handler : exn -> promise A)
  : promise A :=
  fun w =>
    match body w with
    | (Fulfilled a, w') => (Fulfilled a, w')
    | (RejectedWith e, w') => handler e w'
    end.

(** A synchronous call inside an async function: its value, or what it
    throws as the rejection. *)
Definition settle {A} (c : completion A) : promise A := fun w => (c, w).

Notation "'await' x <- m ;; k" := (bind m (fun x => k))
  (at level 10, x name, m at level 99, k at level 200).
Notation "'wait' m ;; k" := (bind m (fun _ => k))
  (at level 10, m at level 99, k at level 200).

(** *** Collaborators that are not part of this file *)

(** The Markdown instances of lib/md/Markdown, and lib/Stats. *)
Variable maker : Type.
Variable Stats : Type.

Record collaborators : Type :=
  { (** fs, fs-extra, fast-glob and path *)
    fs_readFile : string -> promise string;
    fs_writeFile : string -> string -> promise unit;
    fsExtra_ensureDir : string -> promise unit;
    (** the pattern, and the [cwd] option as the instance holds it *)
    glob : string -> JS.value -> promise (list string);
    path_basename : string -> string -> string;
    path_dirname : string -> string;
    (** [path.join] on two strings *)
    path_join : string -> string -> string;
    (** the TypeError [path.join] throws for an argument that is not a
        string *)
    invalid_path : JS.value -> exn;
    (** what [fs.writeFile] throws when handed [undefined] *)
    undefined_payload : exn;
    (** lib/errors: wrappers around a caught value, and the printer whose
        result is logged, a synchronous function that may throw *)
    SourceFileError : exn -> exn;
    TargetFileError : exn -> exn;
    InplaceFileError : exn -> exn;
    errorToOutput : exn -> completion string;
    (** lib/md/Markdown: construction, evaluation, and the renderings
        selected by a format name *)
    Markdown_new : string -> evaldown -> maker;
    maker_evaluate :
      maker -> string -> string -> list (string * JS.value) -> promise unit;
    generateOutput : string -> maker -> promise string;
    (** the [wrapOutput] option, called with the output and the
        context's [sourceFile] and [targetFile] *)
    wrapper : string -> string -> string -> promise string;
    (** lib/Stats: the fresh object, and its two methods, synchronous
        calls on the one [stats] object: each returns or throws, and
        leaves the object as it made it either way *)
    Stats_new : Stats;
    addSuccess : string -> Stats -> completion unit * Stats;
    addError : string -> exn -> Stats -> completion unit * Stats }.

Variable host : collaborators.

(** [path.join(dir, rest)] where [dir] is a field of the instance: a
    TypeError when it is not a string. *)
Definition join_path (dir : JS.value) (rest : string) : promise string :=
  match dir with
  | JS.Str d => ret (path_join host d rest)
  | _ => throw (invalid_path host dir)
  end.

Record output_pair : Type :=
  { targetOutput : string; sourceOutput : option string }.

Definition makeOutputForContent (ev : evaldown) (fileContent pwdPath : string)
  : promise output_pair :=
  let maker := Markdown_new host fileContent ev in
  wait maker_evaluate host maker pwdPath (capture ev) (fileGlobals ev) ;;
  await targetOutput <- generateOutput host (formatName ev) maker ;;
  if negb (inplace ev || update ev) then
    ret {| targetOutput := targetOutput; sourceOutput := None |}
  else if String.eqb (formatName ev) "markdown" then
    ret {| targetOutput := targetOutput; sourceOutput := Some targetOutput |}
  else
    await sourceOutput <- generateOutput host "markdown" maker ;;
    ret {| targetOutput := targetOutput; sourceOutput := Some sourceOutput |}.

Record prepared : Type :=
  { sourceFile : string;
    sourceBaseName : string;
    sourceDirName : string;
    sourceFilePath : string;
    outputs : output_pair }.

Definition prepareFile (ev : evaldown) (sourceFile : string)
  : promise prepared :=
  let sourceBaseName := path_basename host sourceFile (sourceExtension ev) in
  let sourceDirName := path_dirname host sourceFile in
  await sourceFilePath <- join_path (sourcePath ev) sourceFile ;;
  await fileContent <-
    try_catch (fs_readFile host sourceFilePath)
              (fun e => throw (SourceFileError host e)) ;;
  await pwdPath <- join_path (sourcePath ev) sourceDirName ;;
  await output <- makeOutputForContent ev fileContent pwdPath ;;
  ret {| sourceFile := sourceFile;
         sourceBaseName := sourceBaseName;
         sourceDirName := sourceDirName;
         sourceFilePath := sourceFilePath;
         outputs := output |}.

Definition updateFile (ev : evaldown) (p : prepared) : promise unit :=
  try_catch
    (match sourceOutput (outputs p) with
     | Some text => fs_writeFile host (sourceFilePath p) text
     | None => throw (undefined_payload host)
     end)
    (fun e => throw (InplaceFileError host e)).

Definition writeFile (ev : evaldown) (p : prepared) : promise unit :=
  let targetFile :=
    path_join host (sourceDirName p)
              (sourceBaseName p ++ targetExtension ev) in
  await targetFilePath <- join_path (targetPath ev) targetFile ;;
  try_catch
    (wait fsExtra_ensureDir host (path_dirname host targetFilePath) ;;
     await wrapped <-
       wrapper host (targetOutput (outputs p)) (sourceFile p) targetFile ;;
     fs_writeFile host targetFilePath wrapped)
    (fun e => throw (TargetFileError host e)).

Definition processFile (ev : evaldown) (sourceFile : string)
  : promise unit :=
  await prepared <- prepareFile ev sourceFile ;;
  wait (if negb (inplace ev) && targetPath_truthy ev
        then writeFile ev prepared else ret tt) ;;
  if inplace ev || update ev
  then updateFile ev prepared else ret tt.

(** The [catch] block of the loop of [processFiles]: it records the
    error on [stats] and then has [errors.errorToOutput(e)] evaluated for
    the log line; what either call throws leaves the loop. *)
Definition catch_block (file : string) (e : exn) (stats : Stats)
  : promise Stats :=
  let '(call, recorded) := addError host file e stats in
  wait settle call ;;
  wait settle (errorToOutput host e) ;;
  ret recorded.

(** One turn of the loop: the [try] block, in which [processFile] and
    then [stats.addSuccess] may throw into the [catch] block.  The
    [stats] object is the same throughout, so the [catch] block finds it
    as a throwing [addSuccess] left it. *)
Definition loop_body (ev : evaldown) (file : string) (stats : Stats)
  : promise Stats :=
  fun w =>
    match processFile ev file w with
    | (Fulfilled _, w1) =>
        match addSuccess host file stats with
        | (Fulfilled _, counted) => (Fulfilled counted, w1)
        | (RejectedWith e, touched) => catch_block file e touched w1
        end
    | (RejectedWith e, w1) => catch_block file e stats w1
    end.

(** The [for ... of] loop of [processFiles]. *)
Fixpoint processFiles_loop (ev : evaldown) (markdownFiles : list string)
         (stats : Stats) : promise Stats :=
  match markdownFiles with
  | [] => ret stats
  | file :: files =>
      await stats' <- loop_body ev file stats ;;
      processFiles_loop ev files stats'
  end.

Definition processFiles (ev : evaldown) : promise Stats :=
  await markdownFiles <-
    glob host ("**/*" ++ sourceExtension ev) (sourcePath ev) ;;
  let stats := Stats_new host in
  processFiles_loop ev markdownFiles stats.

(** *** What a sequential, never-aborting run of a batch amounts to *)

(** The outcome of every file, each run in the world its predecessor
    left behind. *)
Fixpoint outcomes (ev : evaldown) (files : list string) (w : world)
  : list (string * completion unit) * world :=
  match files with
  | [] => ([], w)
  | file :: files' =>
      let '(c, w1) := processFile ev file w in
      let '(rest, w2) := outcomes ev files' w1 in
      ((file, c) :: rest, w2)
  end.

(** One outcome recorded by Stats methods that return. *)
Definition record_outcome (added : string -> Stats -> Stats)
           (failed : string -> exn -> Stats -> Stats)
           (stats : Stats) (o : string * completion unit) : Stats :=
  match o with
  | (file, Fulfilled _) => added file stats
  | (file, RejectedWith e) => failed file e stats
  end.

End Batch.

Arguments Fulfilled {exn A} a.
Arguments RejectedWith {exn A} e.
Arguments processFile {world exn maker Stats} host ev sourceFile _.
Arguments processFiles_loop {world exn maker Stats} host ev markdownFiles stats _.
Arguments processFiles {world exn maker Stats} host ev _.
Arguments outcomes {world exn maker Stats} host ev files w.
Arguments record_outcome {exn Stats} added failed stats o.
Arguments glob {world exn maker Stats} _ _ _ _.
Arguments Stats_new {world exn maker Stats} _.

(** *** A small batch to run *)

(** A host whose world is the list of paths written so far, whose errors
    are strings, whose Stats are the list of recorded files with the error
    of those that failed, and in which reading [docs/missing.md] fails. *)
Definition example_host
  : collaborators (list string) string string (list (string * option string)) :=
  {| fs_readFile := fun path w =>
       if String.eqb path "docs/missing.md"
       then (RejectedWith "ENOENT", w)
       else (Fulfilled "# title", w);
     fs_writeFile := fun path _ w => (Fulfilled tt, w ++ [path]);
     fsExtra_ensureDir := fun _ w => (Fulfilled tt, w);
     glob := fun _ _ w => (Fulfilled ["a.md"; "missing.md"; "b.md"], w);
     path_basename := fun file _ => file;
     path_dirname := fun _ => ".";
     path_join := fun a b => (a ++ "/" ++ b)%string;
     invalid_path := fun _ => "TypeError [ERR_INVALID_ARG_TYPE]";
     undefined_payload := "ERR_INVALID_ARG_TYPE";
     SourceFileError := fun e => ("SourceFileError: " ++ e)%string;
     TargetFileError := fun e => ("TargetFileError: " ++ e)%string;
     InplaceFileError := fun e => ("InplaceFileError: " ++ e)%string;
     errorToOutput := fun e => Fulfilled e;
     Markdown_new := fun content _ => content;
     maker_evaluate := fun _ _ _ _ w => (Fulfilled tt, w);
     generateOutput := fun _ content w => (Fulfilled content, w);
     wrapper := fun out _ _ w => (Fulfilled out, w);
     Stats_new := [];
     addSuccess := fun file stats => (Fulfilled tt, stats ++ [(file, None)]);
     addError :=
       fun file e stats => (Fulfilled tt, stats ++ [(file, Some e)]) |}.

Definition example_evaldown : evaldown :=
  {| capture := "return";
     formatName := "html";
     marker := "evaldown";
     preamble := None;
     inplace := false;
     update := false;
     requirePath := JS.Undefined;
     sourcePath := JS.Str "docs";
     targetPath := JS.Str "site";
     tsconfigPath := JS.Undefined;
     sourceExtension := ".md";
     targetExtension := ".html";
     fileGlobals := [] |}.

End Evaldown.

(** ** Flags and blocks *)

Module Flags.

(** A flag is a boolean or a string. *)
Inductive flag : Type :=
| FBool (b : bool)
| FStr (s : string).

#[global] Instance flag_eq_dec : EqDecision flag.
Proof. solve_decision. Defined.

(** [flags.k] used as a condition: a missing flag is [undefined]. *)
Definition truthy (flags : gmap string flag) (k : string) : bool :=
  match flags !! k with
  | Some (FBool b) => b
  | Some (FStr s) => negb (String.eqb s "")
  | None => false
  end.

(** [flags.k === true]. *)
Definition is_true (flags : gmap string flag) (k : string) : bool :=
  match flags !! k with
  | Some (FBool true) => true
  | _ => false
  end.

End Flags.

(** ** The snippet extractor *)

Module ExtractSnippets.

Import Flags.

Definition LF : ascii := "010"%char.
Definition is_space (c : ascii) : bool :=
  Ascii.eqb c " " || Ascii.eqb c "009" || Ascii.eqb c LF || Ascii.eqb c "013".

(** *** Small string helpers *)

Fixpoint trim_start (s : string) : string :=
  match s with
  | String c rest => if is_space c then trim_start rest else s
  | EmptyString => EmptyString
  end.

Fixpoint rev_string (s acc : string) : string :=
  match s with
  | EmptyString => acc
  | String c rest => rev_string rest (String c acc)
  end.

Definition trim_end (s : string) : string :=
  rev_string (trim_start (rev_string s "")) "".

Definition trim (s : string) : string := trim_end (trim_start s).

(** [s.split(sep)] for a one-character separator. *)
Fixpoint split_on (sep : ascii) (s : string) : list string :=
  match s with
  | EmptyString => [EmptyString]
  | String c rest =>
      if Ascii.eqb c sep then EmptyString :: split_on sep rest
      else
        match split_on sep rest with
        | piece :: pieces => String c piece :: pieces
        | [] => [String c EmptyString]
        end
  end.

(** The text before and after the first occurrence of [sep], if any. *)
Fixpoint cut_first (sep : ascii) (s : string) : option (string * string) :=
  match s with
  | EmptyString => None
  | String c rest =>
      if Ascii.eqb c sep then Some (EmptyString, rest)
      else
        match cut_first sep rest with
        | Some (before, after) => Some (String c before, after)
        | None => None
        end
  end.

Fixpoint skip (n : nat) (s : string) : string :=
  match n, s with
  | O, _ => s
  | S n', String _ rest => skip n' rest
  | S _, EmptyString => EmptyString
  end.

Fixpoint starts_with (start s : string) : bool :=
  match start, s with
  | EmptyString, _ => true
  | String a start', String b s' => Ascii.eqb a b && starts_with start' s'
  | String _ _, EmptyString => false
  end.

Definition ends_with (suffix s : string) : bool :=
  starts_with (rev_string suffix "") (rev_string s "").

Definition drop_end (n : nat) (s : string) : string :=
  rev_string (skip n (rev_string s "")) "".

(** *** FlagParser *)

(** A bare [true] or [false] becomes a boolean, anything else stays a
    string. *)
Definition coerce (v : string) : flag :=
  if String.eqb v "true" then FBool true
  else if String.eqb v "false" then FBool false
  else FStr v.

(** One [key:value] item, whitespace around the key, the colon and the
    value removed; an item without a colon, or with an empty key or value,
    is malformed. *)
Definition parse_item (item : string) : option (string * flag) :=
  match cut_first ":" item with
  | Some (k, v) =>
      let k := trim k in
      let v := trim v in
      if String.eqb k "" || String.eqb v "" then None
      else Some (k, coerce v)
  | None => None
  end.

Fixpoint parse_items (items : list string) : option (list (string * flag)) :=
  match items with
  | [] => Some []
  | item :: rest =>
      match parse_item item, parse_items rest with
      | Some kv, Some kvs => Some (kv :: kvs)
      | _, _ => None
      end
  end.

(** Later writes win, as assignments to an object's properties do. *)
Definition assign_all (kvs : list (string * flag)) (m : gmap string flag)
  : gmap string flag :=
  fold_left (fun acc kv => <[fst kv := snd kv]> acc) kvs m.

(** Modelled from the spec: the flag parser is part of
    lib/extractSnippets.js, which is not among the sources (only its
    test-suite is).  It splits on commas, parses every item, and yields the
    empty mapping when an item is malformed. *)
Definition parseFlags (text : string) : gmap string flag :=
  match parse_items (split_on "," text) with
  | Some kvs => assign_all kvs ∅
  | None => ∅
  end.

(** *** Language tags *)

Definition normalize_lang (lang : string) : string :=
  if String.eqb lang "js" then "javascript" else lang.

(** Modelled from the spec: the tag split on its first [#], giving the
    normalized language and, when there is a suffix, its text. *)
Definition parseSnippetInfo (tag : string) : string * option string :=
  match cut_first "#" tag with
  | Some (lang, suffix) => (normalize_lang lang, Some suffix)
  | None => (normalize_lang tag, None)
  end.

(** Modelled from the spec: [evaluate] defaults to [true].  The default is
    laid under every block, whatever its language: the collection's suite
    expects [evaluate: true] on the output block of its document as
    well. *)
Definition default_flags : gmap string flag :=
  {[ "evaluate" := FBool true ]}.

(** *** Locating fences *)

(** An HTML comment that the extractor reads flags from: its offset in
    the document, whether it carries the configured marker, and its flag
    text (what follows the marker when it carries one). *)
Record comment : Type :=
  { comment_offset : nat;
    comment_marked : bool;
    comment_text : string }.

(** What is known about one fence once it has been located: the offset of
    its opening marker, its tag, its body, and the comment on the line
    directly above it when there is one to read. *)
Record located : Type :=
  { fence_offset : nat;
    fence_tag : string;
    fence_code : string;
    above : option comment }.

(** The lines of a text with the offset each one starts at. *)
Fixpoint with_offsets (offset : nat) (lines : list string)
  : list (nat * string) :=
  match lines with
  | [] => []
  | l :: rest => (offset, l) :: with_offsets (offset + String.length l + 1) rest
  end.

Definition fence_marker : string := "```".

(** The body of [<!-- body -->] when the whole line is such a comment. *)
Definition comment_body (l : string) : option string :=
  if starts_with "<!--" l && ends_with "-->" l && (7 <=? String.length l)%nat
  then Some (trim (drop_end 3 (skip 4 l)))
  else None.

(** Modelled from the spec: what follows the marker in a comment body
    that begins with the marker token, the marker standing alone or being
    followed by whitespace. *)
Definition strip_marker (marker body : string) : option string :=
  if starts_with marker body then
    match skip (String.length marker) body with
    | EmptyString => Some EmptyString
    | String c rest =>
        if is_space c then Some (trim (String c rest)) else None
    end
  else None.

(** Modelled from the spec: with a marker configured, a comment is a
    directive comment when its body begins with the marker, and its flag
    text is the remainder; any other comment is nothing.  Called without
    a marker, as the extractor's suite calls it, there are no directive
    comments, and the body of any comment is read as flag text. *)
Definition classify (marker : option string) (offset : nat) (body : string)
  : option comment :=
  match marker with
  | Some m =>
      match strip_marker m body with
      | Some text =>
          Some {| comment_offset := offset; comment_marked := true;
                  comment_text := text |}
      | None => None
      end
  | None =>
      Some {| comment_offset := offset; comment_marked := false;
              comment_text := body |}
  end.

Definition comment_of (marker : option string) (offset : nat) (l : string)
  : option comment :=
  match comment_body l with
  | Some body => classify marker offset body
  | None => None
  end.

Record open_fence : Type :=
  { open_offset : nat;
    open_tag : string;
    open_above : option comment;
    open_lines : list string }.

(** Modelled from the spec: the structural markdown parser that locates
    the fences is external; this is a line-by-line stand-in for it: a line
    that starts with the marker opens a fence, the next line that is the
    marker alone closes it, an unterminated fence is dropped.  The comment
    of a fence is the one on the line directly above it. *)
Fixpoint scan_lines (marker : option string) (lines : list (nat * string))
         (previous : option comment) (current : option open_fence)
  : list located :=
  match lines with
  | [] => []
  | (offset, l) :: rest =>
      match current with
      | Some f =>
          if String.eqb l fence_marker then
            {| fence_offset := open_offset f;
               fence_tag := open_tag f;
               fence_code := String.concat (String LF "") (rev (open_lines f));
               above := open_above f |}
              :: scan_lines marker rest None None
          else
            scan_lines marker rest None
              (Some {| open_offset := open_offset f;
                       open_tag := open_tag f;
                       open_above := open_above f;
                       open_lines := l :: open_lines f |})
      | None =>
          if starts_with fence_marker l then
            scan_lines marker rest None
              (Some {| open_offset := offset;
                       open_tag := skip 3 l;
                       open_above := previous;
                       open_lines := [] |})
          else
            scan_lines marker rest (comment_of marker offset l) None
      end
  end.

Definition scan (marker : option string) (markdown : string) : list located :=
  scan_lines marker (with_offsets 0 (split_on LF markdown)) None None.

(** Modelled from the spec: the directive comment of a fence is the
    comment above it when that one begins with the configured marker; its
    offset and its flag text. *)
Definition directive (f : located) : option (nat * string) :=
  match above f with
  | Some c =>
      if comment_marked c then Some (comment_offset c, comment_text c)
      else None
  | None => None
  end.

(** *** Blocks *)

Record block : Type :=
  { lang : string;
    flags : gmap string flag;
    index : nat;
    code : string }.

Definition suffix_flags (f : located) : gmap string flag :=
  match snd (parseSnippetInfo (fence_tag f)) with
  | Some suffix => parseFlags suffix
  | None => ∅
  end.

(** Modelled from the spec: the flags read from the comment above the
    fence. *)
Definition comment_flags (f : located) : gmap string flag :=
  match above f with
  | Some c => parseFlags (comment_text c)
  | None => ∅
  end.

(** Modelled from the spec: the index of a block is the offset of its
    directive comment when it has one, and the offset of the fence's
    opening marker otherwise. *)
Definition block_index (f : located) : nat :=
  match directive f with
  | Some (offset, _) => offset
  | None => fence_offset f
  end.

(** Modelled from the spec: the flags of a fence are the suffix flags
    laid over the flags of the comment, laid over the defaults ([∪] keeps
    the left value of a shared key). *)
Definition block_of (f : located) : block :=
  let language := fst (parseSnippetInfo (fence_tag f)) in
  {| lang := language;
     flags := suffix_flags f ∪ comment_flags f ∪ default_flags;
     index := block_index f;
     code := fence_code f |}.

(** Modelled from the spec: lib/extractSnippets.js is not among the
    sources, only its test-suite and that of the collection built from it
    are.  The definition follows the specification's extractor: the
    fences in document order, each with its language, flags, index and
    body.  The marker is the one configured, if any. *)
Definition extractSnippets (marker : option string) (markdown : string)
  : list block :=
  map block_of (scan marker markdown).

(** *** Vocabulary for the statements about the extractor *)

Fixpoint all_chars (p : ascii -> bool) (s : string) : bool :=
  match s with
  | EmptyString => true
  | String c rest => p c && all_chars p rest
  end.

Definition other_than (sep : ascii) (c : ascii) : bool :=
  negb (Ascii.eqb c sep).

(** A character of a key or of a value: no whitespace, comma or colon. *)
Definition word_char (c : ascii) : bool :=
  negb (is_space c) && other_than "," c && other_than ":" c.

(** A well-formed key or value: a non-empty run of such characters. *)
Definition flag_word (s : string) : bool :=
  negb (String.eqb s "") && all_chars word_char s.

Definition render_item (kv : string * string) : string :=
  fst kv ++ String ":" (snd kv).

(** [k1:v1,k2:v2,...] *)
Fixpoint render_items (kvs : list (string * string)) : string :=
  match kvs with
  | [] => ""
  | [kv] => render_item kv
  | kv :: rest => render_item kv ++ String "," (render_items rest)
  end.

Definition well_formed_items (kvs : list (string * string)) : Prop :=
  kvs <> []
  /\ Forall (fun kv => flag_word (fst kv) = true /\ flag_word (snd kv) = true) kvs
  /\ NoDup (map fst kvs).

(** Some line of the text starts at [offset], and starts with [start]. *)
Definition line_at (lines : list (nat * string)) (offset : nat)
           (start : string) : Prop :=
  exists l, In (offset, l) lines /\ starts_with start l = true.

(** Some line of the text is the comment [c]: it starts at the offset of
    [c], is an HTML comment, and classifies as [c] under the marker. *)
Definition comment_at (marker : option string) (lines : list (nat * string))
           (c : comment) : Prop :=
  exists l body,
    In (comment_offset c, l) lines
    /\ comment_body l = Some body
    /\ classify marker (comment_offset c) body = Some c.

(** *** Documents of the test-suite *)

Definition double_quote : string := String "034"%char "".
Definition unlines (lines : list string) : string :=
  String.concat (String LF "") lines.
Definition alert_hello : string :=
  "alert(" ++ double_quote ++ "Hello!" ++ double_quote ++ ");".

(** A document made of the lines [above] and one fence with the given tag
    around the suite's one-line snippet. *)
Definition suite_document (above : list string) (tag : string) : string :=
  unlines (above ++ [(fence_marker ++ tag)%string; alert_hello; fence_marker; ""]).

(** "should extract a snippet between some markdown sections" *)
Definition document_sections : string :=
  unlines ["# foo"; ""; "```javascript"; alert_hello; "```"; ""; "# bar"; ""].

(** "should multiple snippets" *)
Definition document_two_fences : string :=
  unlines ["```js"; alert_hello; "```"; "";
           "```js";
           ("alert(" ++ double_quote ++ "world!" ++ double_quote ++ ");")%string;
           "```"; ""].

(** The value of one flag on every extracted block. *)
Definition flag_values (marker : option string) (markdown k : string)
  : list (option flag) :=
  map (fun b => flags b !! k) (extractSnippets marker markdown).

(** "provides the index of the block" *)
Definition document_plain : string :=
  unlines ["foobar"; "```js#foo:false"; alert_hello; "```"; ""].

(** "skips past a preceding HTML comment when providing the index" *)
Definition document_with_comment : string :=
  unlines ["foobar"; "<!-- foo: bar -->"; "```js#foo:false"; alert_hello;
           "```"; ""].

(** "should let the flags after the language specifier win when the same
    flag is provided in both places" *)
Definition document_both_sources : string :=
  unlines ["<!-- foo:true -->"; "```js#foo:false"; alert_hello; "```"; ""].

(** The same with a directive comment that carries the marker. *)
Definition document_marked_sources : string :=
  unlines ["<!-- evaldown foo:true,bar:baz -->"; "```js#foo:false"; alert_hello;
           "```"; ""].

(** The document of "Snippets.fromMarkdown() should extract the snippets". *)
Definition throw_line : string :=
  "throw new Error(" ++ double_quote
    ++ "foo\n  at bar (/somewhere.js:1:2)\n  at quux (/blah.js:3:4)\n  at baz (/yadda.js:5:6)"
    ++ double_quote ++ ")".

Definition document_fromMarkdown : string :=
  unlines ["Asserts deep equality.";
           "";
           "```javascript";
           throw_line;
           "```";
           "";
           "<!-- evaldown cleanStackTrace:true -->";
           "```output";
           "foo";
           "  at bar (/path/to/file.js:x:y)";
           "  at quux (/path/to/file.js:x:y)";
           "```"].

End ExtractSnippets.

(** ** The snippet collection *)

Module Snippets.

Import Flags.

Inductive output_kind : Type := KResult | KConsole | KError.

Record output_record : Type := { kind : output_kind; text : string }.

(** A block as the collection holds it: the extracted fields, and the two
    fields evaluation fills in.  A block built without [flags] has the
    empty mapping. *)
Record block : Type :=
  { lang : string;
    flags : gmap string flag;
    index : nat;
    code : string;
    output : option output_record;
    transpiled : option string }.

Definition set_output (b : block) (o : option output_record) : block :=
  {| lang := lang b; flags := flags b; index := index b; code := code b;
     output := o; transpiled := transpiled b |}.

Definition set_transpiled (b : block) (t : option string) : block :=
  {| lang := lang b; flags := flags b; index := index b; code := code b;
     output := output b; transpiled := t |}.

Definition is_output (b : block) : bool := String.eqb (lang b) "output".
Definition is_executable (b : block) : bool :=
  String.eqb (lang b) "javascript" || String.eqb (lang b) "typescript".
Definition is_typescript (b : block) : bool :=
  String.eqb (lang b) "typescript".

(** *** Errors *)

Definition no_matching_code_block : string :=
  "no matching code block for output snippet".
Definition hidden_code_block : string :=
  "cannot match hidden code block to output snippet".
Definition evaluated_twice : string :=
  "the same snippets were evaluated twice".
Definition transpileFn_with_typescript : string :=
  "transpileFn cannot be specified with TypeScript snippets".
Definition tsconfig_missing : string :=
  "tsconfig must be specified with TypeScript snippets".

(** A plain [Error]. *)
Record Error : Type := { error_message : string }.

(** One block's failure: the message and, as [data.original], its cause. *)
Record SnippetProcessingError : Type :=
  { message : string; original : Error }.

Definition wrap (e : Error) : SnippetProcessingError :=
  {| message := error_message e; original := e |}.

(** What [evaluate] can reject with. *)
Inductive rejection : Type :=
| PlainError (e : Error)
| FileEvaluationError (errors : gmap nat SnippetProcessingError).

(** The message of a rejection; an aggregate has none of its own. *)
Definition rejection_message (r : rejection) : string :=
  match r with
  | PlainError e => error_message e
  | FileEvaluationError _ => ""
  end.

(** *** The collection *)

Record snippets : Type := { items : list block; evaluated : bool }.

Definition new (items : list block) : snippets :=
  {| items := items; evaluated := false |}.

(** [get(index)]: the block at a position, nothing when out of range. *)
Definition get (s : snippets) (position : nat) : option block :=
  items s !! position.

(** *** Pairing *)

(** Modelled from the spec: the block an output block at [position] is
    paired with is the one directly before it, which has to be executable
    and not hidden. *)
Definition locate_code_block (blocks : list block) (position : nat)
  : Error + block :=
  match position with
  | O => inl {| error_message := no_matching_code_block |}
  | S before =>
      match blocks !! before with
      | Some previous =>
          if is_executable previous then
            if is_true (flags previous) "hide"
            then inl {| error_message := hidden_code_block |}
            else inr previous
          else inl {| error_message := no_matching_code_block |}
      | None => inl {| error_message := no_matching_code_block |}
      end
  end.

Fixpoint check_from (blocks : list block) (position : nat)
         (remaining : list block) (acc : gmap nat SnippetProcessingError)
  : gmap nat SnippetProcessingError :=
  match remaining with
  | [] => acc
  | b :: rest =>
      let acc' :=
        if is_output b then
          match locate_code_block blocks position with
          | inl e => <[position := wrap e]> acc
          | inr _ => acc
          end
        else acc in
      check_from blocks (S position) rest acc'
  end.

(** Modelled from the spec: lib/md/Snippets.js is not among the sources
    (only its test-suite is).  [check] looks at every output block,
    collects a wrapped error for each one that cannot be paired, and
    returns the collection instead of throwing. *)
Definition check (s : snippets) : gmap nat SnippetProcessingError :=
  check_from (items s) 0 (items s) ∅.

Record test : Type :=
  { test_code : string;
    test_flags : gmap string flag;
    test_output : option string }.

(** The last record gets the text of the output block. *)
Fixpoint attach_output (tests : list test) (text : string) : list test :=
  match tests with
  | [] => []
  | [t] => [{| test_code := test_code t; test_flags := test_flags t;
               test_output := Some text |}]
  | t :: rest => t :: attach_output rest text
  end.

Fixpoint getTests_from (blocks : list block) (position : nat)
         (remaining : list block) (tests : list test) : Error + list test :=
  match remaining with
  | [] => inr tests
  | b :: rest =>
      if is_output b then
        match locate_code_block blocks position with
        | inl e => inl e
        | inr _ =>
            getTests_from blocks (S position) rest
                          (attach_output tests (code b))
        end
      else if is_executable b then
        getTests_from blocks (S position) rest
                      (tests ++ [{| test_code := code b;
                                    test_flags := flags b;
                                    test_output := None |}])
      else getTests_from blocks (S position) rest tests
  end.

(** Modelled from the spec: lib/md/Snippets.js is not among the sources.
    [getTests] folds every executable block and the output block that
    follows it into one record; [inl e] stands for throwing [e]. *)
Definition getTests (s : snippets) : Error + list test :=
  getTests_from (items s) 0 (items s) [].

(** *** Evaluation *)

Inductive capture_mode : Type := CaptureReturn | CaptureConsole | CaptureNowrap.

(** The options of [evaluate] that decide what is run and how. *)
Record options : Type :=
  { capture : capture_mode;
    transpileFn : option (string -> string);
    tsconfig : option string;
    preamble : option string;
    pwdPath : string }.

(** [evaluate()] and [evaluate({})]: nothing supplied. *)
Definition no_options : options :=
  {| capture := CaptureReturn; transpileFn := None; tsconfig := None;
     preamble := None; pwdPath := "" |}.

(** The capture mode of one block: its own flags first, the run's mode
    otherwise. *)
Definition block_capture (opts : options) (b : block) : capture_mode :=
  if truthy (flags b) "return" then CaptureReturn
  else if truthy (flags b) "console" then CaptureConsole
  else if truthy (flags b) "nowrap" then CaptureNowrap
  else capture opts.

(** How running one piece of code ends: what was captured, already
    printed (nothing for [undefined] or an empty console), or the stack of
    what was thrown. *)
Inductive run_result : Type :=
| Captured (printed : option string)
| Threw (stack : string).

Section Engine.

(** The shared scope the blocks of one run execute in. *)
Variable scope : Type.
(** Running code in the scope; the boolean is [flags.async]. *)
Variable run : capture_mode -> bool -> string -> scope -> run_result * scope.
(** The TypeScript compiler selected by a [tsconfig]. *)
Variable compile_typescript : string -> string -> string.
(** Stack-frame normalization. *)
Variable cleanStackTrace : string -> string.

Definition captured_kind (mode : capture_mode) : output_kind :=
  match mode with CaptureConsole => KConsole | _ => KResult end.

(** The code that is run for a block, and the transpiled text retained
    on it. *)
Definition transpile (opts : options) (b : block) : string * option string :=
  if is_typescript b then
    match tsconfig opts with
    | Some config =>
        let t := compile_typescript config (code b) in (t, Some t)
    | None => (code b, None)
    end
  else
    match transpileFn opts with
    | Some fn => let t := fn (code b) in (t, Some t)
    | None => (code b, None)
    end.

(** How a run over the blocks ends: past the last block, at a block that
    threw, or at a block whose configuration is refused. *)
Inductive run_end : Type :=
| Finished
| Stopped
| Misconfigured (e : Error).

(** Modelled from the spec: step 2 of the procedure for one block.  A
    TypeScript block needs a tsconfig and excludes a transpile function;
    as the suite expects, a transpile function is reported first. *)
Definition check_configuration (opts : options) (b : block) : option Error :=
  if is_typescript b then
    match transpileFn opts with
    | Some _ => Some {| error_message := transpileFn_with_typescript |}
    | None =>
        match tsconfig opts with
        | None => Some {| error_message := tsconfig_missing |}
        | Some _ => None
        end
    end
  else None.

(** Modelled from the spec: the blocks are run in document order.  A block
    that is not executable or whose [evaluate] flag is falsy is skipped; a
    block whose configuration is refused ends the run before it is
    executed; once a block has thrown, the ones after it are left as they
    are. *)
Fixpoint run_blocks (opts : options) (position : nat) (blocks : list block)
         (errors : gmap nat SnippetProcessingError) (sc : scope)
  : list block * gmap nat SnippetProcessingError * scope * run_end :=
  match blocks with
  | [] => ([], errors, sc, Finished)
  | b :: rest =>
      if is_executable b && truthy (flags b) "evaluate" then
        match check_configuration opts b with
        | Some e => (b :: rest, errors, sc, Misconfigured e)
        | None =>
            let '(source, retained) := transpile opts b in
            let b := set_transpiled b retained in
            let mode := block_capture opts b in
            match run mode (truthy (flags b) "async") source sc with
            | (Captured printed, sc') =>
                let b' :=
                  set_output b
                    (match printed with
                     | Some t =>
                         Some {| kind := captured_kind mode; text := t |}
                     | None => None
                     end) in
                let '(rest', errors', sc'', ending) :=
                  run_blocks opts (S position) rest errors sc' in
                (b' :: rest', errors', sc'', ending)
            | (Threw stack, sc') =>
                let shown :=
                  if truthy (flags b) "cleanStackTrace"
                  then cleanStackTrace stack else stack in
                let b' :=
                  set_output b (Some {| kind := KError; text := shown |}) in
                (b' :: rest,
                 <[position := wrap {| error_message := stack |}]> errors,
                 sc', Stopped)
            end
        end
      else
        let '(rest', errors', sc', ending) :=
          run_blocks opts (S position) rest errors sc in
        (b :: rest', errors', sc', ending)
  end.

(** Modelled from the spec: the preamble is run once in the shared scope
    before the first block, with no output captured. *)
Definition run_preamble (opts : options) (sc : scope) : scope :=
  match preamble opts with
  | Some source => snd (run CaptureNowrap false source sc)
  | None => sc
  end.

(** How the promise returned by [evaluate] settles. *)
Inductive settled : Type :=
| Resolved
| Rejected (r : rejection).

(** [options = options || {}]. *)
Definition supplied_options (supplied : option options) : options :=
  match supplied with
  | Some opts => opts
  | None => no_options
  end.

Definition mark_evaluated (s : snippets) : snippets :=
  {| items := items s; evaluated := true |}.

(** Modelled from the spec: lib/md/Snippets.js is not among the
    sources.  [evaluate] refuses a collection that has been evaluated
    before, marks it, runs the preamble and then the blocks, each by the
    per-block procedure.  A refused configuration rejects outright, with
    the plain error the suite expects by its message; otherwise the
    pairing and execution errors, when there are any, reject as one
    [FileEvaluationError], whose own message is empty. *)
Definition evaluate (supplied : option options) (s : snippets) (sc : scope)
  : settled * snippets * scope :=
  if evaluated s then
    (Rejected (PlainError {| error_message := evaluated_twice |}), s, sc)
  else
    let opts := supplied_options supplied in
    let s := mark_evaluated s in
    let sc := run_preamble opts sc in
    let '(blocks, errors, sc, ending) :=
      run_blocks opts 0 (items s) (check s) sc in
    let s := {| items := blocks; evaluated := true |} in
    match ending with
    | Misconfigured e => (Rejected (PlainError e), s, sc)
    | Finished | Stopped =>
        if decide (errors = ∅) then (Resolved, s, sc)
        else (Rejected (FileEvaluationError errors), s, sc)
    end.

End Engine.

(** *** Collections of the test-suite *)

Definition plain_block (language : string) (fl : gmap string flag)
           (source : string) : block :=
  {| lang := language; flags := fl; index := 0; code := source;
     output := None; transpiled := None |}.

(** "should record and wrap a check error" *)
Definition orphaned_output : block :=
  plain_block "output" ∅ "I've been orphaned!".

(** "should throw if an output block was preceded by a hidden block" *)
Definition hidden_code : block :=
  plain_block "javascript"
              (<["hide" := FBool true]> {["evaluate" := FBool true]})
              "You can't see me".
Definition misplaced_output : block :=
  plain_block "output" ∅ "I'm not supposed to be here!".

(** [testSnippets] *)
Definition test_code_block : block :=
  {| lang := "javascript";
     flags := {["evaluate" := FBool true]};
     index := 24;
     code := ("throw new Error(" ++ String "034"%char ""
               ++ "foo\n  at bar (/somewhere.js:1:2)\n  at quux (/blah.js:3:4)\n  at baz (/yadda.js:5:6)"
               ++ String "034"%char "" ++ ")")%string;
     output := None;
     transpiled := None |}.

Definition test_output_text : string :=
  String.concat (String "010"%char "")
    ["foo"; "  at bar (/path/to/file.js:x:y)"; "  at quux (/path/to/file.js:x:y)"].

Definition test_output_block : block :=
  {| lang := "output";
     flags := <["cleanStackTrace" := FBool true]> {["evaluate" := FBool true]};
     index := 148;
     code := test_output_text;
     output := None;
     transpiled := None |}.

Definition testSnippets : list block := [test_code_block; test_output_block].

(** "with typescript" *)
Definition typescript_block : block :=
  plain_block "typescript" {["evaluate" := FBool true]} "".

(** A javascript block in front of the TypeScript one. *)
Definition counter_block : block :=
  plain_block "javascript" {["evaluate" := FBool true]} "var n = 1".

(** A block as the extractor hands it over: nothing evaluated yet. *)
Definition of_extracted (b : ExtractSnippets.block) : block :=
  {| lang := ExtractSnippets.lang b;
     flags := ExtractSnippets.flags b;
     index := ExtractSnippets.index b;
     code := ExtractSnippets.code b;
     output := None;
     transpiled := None |}.

(** Modelled from the spec: [Snippets.fromMarkdown(text, options)]
    composes the extractor and the collection; of the options, the marker
    is what the extractor reads. *)
Definition fromMarkdown (text : string) (marker : option string) : snippets :=
  new (map of_extracted (ExtractSnippets.extractSnippets marker text)).

(** An engine that only keeps a journal of the code it was asked to
    run. *)
Definition journal_run (_ : capture_mode) (_ : bool) (source : string)
           (journal : list string) : run_result * list string :=
  (Captured None, journal ++ [source]).

End Snippets.

(** ** Property lookup on plain objects *)

Module JSObject.

(** The own property names of [Object.prototype]: what a lookup on a plain
    object finds, through its prototype, when the object itself has no
    such property. *)
Definition object_prototype_names : list string :=
  ["constructor"; "__defineGetter__"; "__defineSetter__"; "hasOwnProperty";
   "__lookupGetter__"; "__lookupSetter__"; "isPrototypeOf";
   "propertyIsEnumerable"; "toString"; "valueOf"; "__proto__";
   "toLocaleString"].

Definition is_inherited (name : string) : bool :=
  existsb (String.eqb name) object_prototype_names.

(** An own property of an object given by its own properties. *)
Fixpoint own {A : Type} (props : list (string * A)) (name : string)
  : option A :=
  match props with
  | [] => None
  | (k, v) :: rest => if String.eqb k name then Some v else own rest name
  end.

(** [options.name] on an options object: a missing property reads as
    [undefined]. *)
Definition read (props : list (string * JS.value)) (name : string) : JS.value :=
  match own props name with
  | Some v => v
  | None => JS.Undefined
  end.

(** What [object[name]] finds on a plain object. *)
Inductive found (A : Type) : Type :=
| Own (a : A)
| Inherited
| Missing.
Arguments Own {A} a.
Arguments Inherited {A}.
Arguments Missing {A}.

End JSObject.

(** ** lib/InspectedConsole.js: the constructor and the methods it installs *)

Module ConsoleObject.

Import InspectedConsole JSObject.

(** What a string-keyed property of an instance holds: one of the bound
    capturing methods, [noopMethod], or a function inherited from
    [Object.prototype]. *)
Inductive method : Type :=
| Capture (out : stream)
| Stub
| FromPrototype.

(** [this.log], [this.info], [this.warn], [this.error], in the order the
    constructor assigns them. *)
Definition bound_methods : list (string * method) :=
  [("log", Capture stdout); ("info", Capture stdout);
   ("warn", Capture stderr); ("error", Capture stderr)].

(** [this[key]] *)
Definition lookup_method (table : list (string * method)) (key : string)
  : option method :=
  match own table key with
  | Some m => Some m
  | None => if is_inherited key then Some FromPrototype else None
  end.

(** The loop over [Object.keys(console)]: a key whose value is a function
    and for which [this[key]] is still falsy gets [noopMethod]. *)
Fixpoint install_stubs (host_console : list (string * JS.value))
         (table : list (string * method)) : list (string * method) :=
  match host_console with
  | [] => table
  | (key, v) :: rest =>
      install_stubs rest
        (if String.eqb (JS.typeof v) "function"
            && negb (match lookup_method table key with
                     | Some _ => true
                     | None => false
                     end)
         then table ++ [(key, Stub)]
         else table)
  end.

(** The methods of [new InspectedConsole(markdown)], given the own
    enumerable properties of the global [console]. *)
Definition constructor (host_console : list (string * JS.value))
  : list (string * method) :=
  install_stubs host_console bound_methods.

(** [con[key](...args)] for a capturing method or a stub; nothing for a key
    that holds no method of the class. *)
Definition call (table : list (string * method)) (key : string)
           (args : list JS.value) (con : console) : option console :=
  match lookup_method table key with
  | Some (Capture out) => Some (makeBoundConsoleMethod out args con)
  | Some Stub => Some (noopMethod args con)
  | Some FromPrototype => None
  | None => None
  end.

(** A sequence of calls, stopping at the first one that is not a call of a
    method of the class. *)
Fixpoint calls (table : list (string * method))
         (script : list (string * list JS.value)) (con : console)
  : option console :=
  match script with
  | [] => Some con
  | (key, args) :: rest =>
      match call table key args con with
      | Some con' => calls table rest con'
      | None => None
      end
  end.

(** Whether the global [console] has a function under [key]. *)
Definition has_function (host_console : list (string * JS.value))
           (key : string) : bool :=
  existsb (fun kv => String.eqb (fst kv) key
                     && String.eqb (JS.typeof (snd kv)) "function")
          host_console.

(** The stream a capturing method is bound to. *)
Definition capturing_stream (key : string) : option stream :=
  if String.eqb key "log" || String.eqb key "info" then Some stdout
  else if String.eqb key "warn" || String.eqb key "error" then Some stderr
  else None.

(** The number of lines one call of a capturing method records. *)
Definition lines_recorded (args : list JS.value) : nat :=
  match args with
  | [] => 1
  | JS.Str _ :: _ => 1
  | _ :: _ => length args
  end.

(** The lines a script of calls records, by the capturing calls in it. *)
Fixpoint script_lines (script : list (string * list JS.value)) : nat :=
  match script with
  | [] => 0
  | (key, args) :: rest =>
      match capturing_stream key with
      | Some _ => lines_recorded args + script_lines rest
      | None => script_lines rest
      end
  end.

Definition is_capturing (key : string) : bool :=
  String.eqb key "log" || String.eqb key "info"
  || String.eqb key "warn" || String.eqb key "error".

(** Reading an escaped text back as the body of a single-quoted JavaScript
    string literal: a backslash and a letter is the character the letter
    names, backslash-x and two hexadecimal digits the character with that
    code, a backslash before anything else is dropped. *)
Definition hex_value (c : ascii) : option N :=
  let n := N_of_ascii c in
  if (48 <=? n)%N && (n <=? 57)%N then Some (n - 48)%N
  else if (97 <=? n)%N && (n <=? 102)%N then Some (n - 87)%N
  else if (65 <=? n)%N && (n <=? 70)%N then Some (n - 55)%N
  else None.

Fixpoint unescape (s : string) : string :=
  match s with
  | EmptyString => EmptyString
  | String c rest =>
      if Ascii.eqb c backslash then
        match rest with
        | EmptyString => EmptyString
        | String e rest' =>
            if Ascii.eqb e "n" then String LF (unescape rest')
            else if Ascii.eqb e "r" then String CR (unescape rest')
            else if Ascii.eqb e "t" then String TAB (unescape rest')
            else if Ascii.eqb e "b" then String BS (unescape rest')
            else if Ascii.eqb e "f" then String FF (unescape rest')
            else if Ascii.eqb e "x" then
              match rest' with
              | String h (String l rest'') =>
                  match hex_value h, hex_value l with
                  | Some hv, Some lv =>
                      String (ascii_of_N (16 * hv + lv)) (unescape rest'')
                  | _, _ => String e (unescape rest')
                  end
              | _ => String e (unescape rest')
              end
            else String e (unescape rest')
        end
      else String c (unescape rest)
  end.

Fixpoint all_code_units (p : ascii -> bool) (s : string) : bool :=
  match s with
  | EmptyString => true
  | String c rest => p c && all_code_units p rest
  end.

(** A code unit that is not a control character. *)
Definition printable (c : ascii) : bool := (32 <=? charCode c)%N.

End ConsoleObject.

(** ** lib/Evaldown.js: the constructor *)

Module EvaldownConstructor.

Import JSObject.

(** [Evaldown.formats[name]]: an entry of the table, something inherited
    from [Object.prototype], or nothing. *)
Definition lookup_format (name : string) : found Evaldown.format :=
  match Evaldown.formats name with
  | Some f => Own f
  | None => if is_inherited name then Inherited else Missing
  end.

(** The keys of [captures]; every value is [true]. *)
Definition captures (name : string) : bool :=
  String.eqb name "console" || String.eqb name "nowrap"
  || String.eqb name "return".

(** [Evaldown.captures[name]] *)
Definition lookup_capture (name : string) : found bool :=
  if captures name then Own true
  else if is_inherited name then Inherited else Missing.

Definition is_missing {A : Type} (f : found A) : bool :=
  match f with Missing => true | _ => false end.

(** [typeof v === "string" ? v : fallback] *)
Definition string_or (v : JS.value) (fallback : string) : string :=
  match v with
  | JS.Str s => s
  | _ => fallback
  end.

Definition double_quote : string := String "034"%char "".

(** The two messages; where they are thrown the interpolated option is the
    string that was looked up. *)
Definition unsupported_format (outputFormat : string) : string :=
  "Evaldown: Unsupported output format " ++ double_quote ++ outputFormat
    ++ double_quote.
Definition unsupported_capture (outputCapture : string) : string :=
  "Evaldown: Unsupported capture type " ++ double_quote ++ outputCapture
    ++ double_quote.

(** [noopWrapper] *)
Definition noopWrapper : JS.value := JS.Fun "noopWrapper".

(** The own properties an options value is read through: those of an
    object, none for anything else ([options || {}], and property reads on a
    primitive, find none of the option names). *)
Definition properties (options : JS.value) : list (string * JS.value) :=
  match options with
  | JS.Obj fields => fields
  | _ => []
  end.

(** [this.format.defaultExtension] *)
Definition format_defaultExtension (f : found Evaldown.format) : JS.value :=
  match f with
  | Own entry => JS.Str (Evaldown.defaultExtension entry)
  | Inherited | Missing => JS.Undefined
  end.

(** The fields of [this] after construction. *)
Record instance : Type :=
  { capture : string;
    format : found Evaldown.format;
    formatName : string;
    marker : string;
    preamble : JS.value;
    wrapper : JS.value;
    inplace : bool;
    update : bool;
    requirePath : JS.value;
    sourcePath : JS.value;
    targetPath : JS.value;
    tsconfigPath : JS.value;
    sourceExtension : JS.value;
    targetExtension : JS.value;
    fileGlobals : JS.value }.

(** [new Evaldown(options)]: the message of the thrown Error, or the
    instance. *)
Definition constructor (options : JS.value) : string + instance :=
  let options := properties options in
  let commentMarker := read options "commentMarker" in
  let fileGlobals := read options "fileGlobals" in
  let filePreamble := read options "filePreamble" in
  let outputCapture := read options "outputCapture" in
  let outputFormat := read options "outputFormat" in
  let wrapOutput := read options "wrapOutput" in
  let sourceExtension := read options "sourceExtension" in
  let targetExtension := read options "targetExtension" in
  let formatName := string_or outputFormat "html" in
  if is_missing (lookup_format formatName) then
    inl (unsupported_format formatName)
  else
    let captureName := string_or outputCapture "return" in
    if is_missing (lookup_capture captureName) then
      inl (unsupported_capture captureName)
    else
      let format := lookup_format formatName in
      inr {| capture := captureName;
             format := format;
             formatName := formatName;
             marker := string_or commentMarker "evaldown";
             preamble := match filePreamble with
                         | JS.Str _ => filePreamble
                         | _ => JS.Undefined
                         end;
             wrapper := if String.eqb (JS.typeof wrapOutput) "function"
                        then wrapOutput else noopWrapper;
             inplace := JS.truthy (read options "inplace");
             update := JS.truthy (read options "update");
             requirePath := read options "requirePath";
             sourcePath := read options "sourcePath";
             targetPath := read options "targetPath";
             tsconfigPath := read options "tsconfigPath";
             sourceExtension :=
               Evaldown.resolve_sourceExtension sourceExtension;
             targetExtension :=
               if JS.truthy (Evaldown.isValidExtension targetExtension)
               then targetExtension
               else format_defaultExtension format;
             fileGlobals :=
               if String.eqb (JS.typeof fileGlobals) "object"
                  && JS.truthy fileGlobals
               then fileGlobals else JS.Obj [] |}.

(** The names [formats] and [captures] answer to. *)
Definition accepted_format (name : string) : bool :=
  String.eqb name "html" || String.eqb name "inlined"
  || String.eqb name "markdown" || is_inherited name.

Definition accepted_capture (name : string) : bool :=
  captures name || is_inherited name.

End EvaldownConstructor.

(** ** lib/Evaldown.js: hosts that differ in one collaborator *)

Module EvaldownHosts.

Import Evaldown.

Section Overrides.

Context {world exn maker Stats : Type}.
Variable host : collaborators world exn maker Stats.

(** The host with another value thrown for an [undefined] payload. *)
Definition with_undefined_payload (e : exn)
  : collaborators world exn maker Stats :=
  {| fs_readFile := fs_readFile _ _ _ _ host;
     fs_writeFile := fs_writeFile _ _ _ _ host;
     fsExtra_ensureDir := fsExtra_ensureDir _ _ _ _ host;
     glob := glob host;
     path_basename := path_basename _ _ _ _ host;
     path_dirname := path_dirname _ _ _ _ host;
     path_join := path_join _ _ _ _ host;
     invalid_path := invalid_path _ _ _ _ host;
     undefined_payload := e;
     SourceFileError := SourceFileError _ _ _ _ host;
     TargetFileError := TargetFileError _ _ _ _ host;
     InplaceFileError := InplaceFileError _ _ _ _ host;
     errorToOutput := errorToOutput _ _ _ _ host;
     Markdown_new := Markdown_new _ _ _ _ host;
     maker_evaluate := maker_evaluate _ _ _ _ host;
     generateOutput := generateOutput _ _ _ _ host;
     wrapper := wrapper _ _ _ _ host;
     Stats_new := Stats_new host;
     addSuccess := addSuccess _ _ _ _ host;
     addError := addError _ _ _ _ host |}.

(** The host with another way of writing a file. *)
Definition with_fs_writeFile (write : string -> string -> promise world exn unit)
  : collaborators world exn maker Stats :=
  {| fs_readFile := fs_readFile _ _ _ _ host;
     fs_writeFile := write;
     fsExtra_ensureDir := fsExtra_ensureDir _ _ _ _ host;
     glob := glob host;
     path_basename := path_basename _ _ _ _ host;
     path_dirname := path_dirname _ _ _ _ host;
     path_join := path_join _ _ _ _ host;
     invalid_path := invalid_path _ _ _ _ host;
     undefined_payload := undefined_payload _ _ _ _ host;
     SourceFileError := SourceFileError _ _ _ _ host;
     TargetFileError := TargetFileError _ _ _ _ host;
     InplaceFileError := InplaceFileError _ _ _ _ host;
     errorToOutput := errorToOutput _ _ _ _ host;
     Markdown_new := Markdown_new _ _ _ _ host;
     maker_evaluate := maker_evaluate _ _ _ _ host;
     generateOutput := generateOutput _ _ _ _ host;
     wrapper := wrapper _ _ _ _ host;
     Stats_new := Stats_new host;
     addSuccess := addSuccess _ _ _ _ host;
     addError := addError _ _ _ _ host |}.

(** The host with everything only [writeFile] uses replaced: the directory
    creation, the output wrapper and the error wrapper. *)
Definition with_target_side
           (ensureDir : string -> promise world exn unit)
           (wrap : string -> string -> string -> promise world exn string)
           (targetError : exn -> exn)
  : collaborators world exn maker Stats :=
  {| fs_readFile := fs_readFile _ _ _ _ host;
     fs_writeFile := fs_writeFile _ _ _ _ host;
     fsExtra_ensureDir := ensureDir;
     glob := glob host;
     path_basename := path_basename _ _ _ _ host;
     path_dirname := path_dirname _ _ _ _ host;
     path_join := path_join _ _ _ _ host;
     invalid_path := invalid_path _ _ _ _ host;
     undefined_payload := undefined_payload _ _ _ _ host;
     SourceFileError := SourceFileError _ _ _ _ host;
     TargetFileError := targetError;
     InplaceFileError := InplaceFileError _ _ _ _ host;
     errorToOutput := errorToOutput _ _ _ _ host;
     Markdown_new := Markdown_new _ _ _ _ host;
     maker_evaluate := maker_evaluate _ _ _ _ host;
     generateOutput := generateOutput _ _ _ _ host;
     wrapper := wrap;
     Stats_new := Stats_new host;
     addSuccess := addSuccess _ _ _ _ host;
     addError := addError _ _ _ _ host |}.

(** The host with another printer of errors. *)
Definition with_errorToOutput (print : exn -> completion exn string)
  : collaborators world exn maker Stats :=
  {| fs_readFile := fs_readFile _ _ _ _ host;
     fs_writeFile := fs_writeFile _ _ _ _ host;
     fsExtra_ensureDir := fsExtra_ensureDir _ _ _ _ host;
     glob := glob host;
     path_basename := path_basename _ _ _ _ host;
     path_dirname := path_dirname _ _ _ _ host;
     path_join := path_join _ _ _ _ host;
     invalid_path := invalid_path _ _ _ _ host;
     undefined_payload := undefined_payload _ _ _ _ host;
     SourceFileError := SourceFileError _ _ _ _ host;
     TargetFileError := TargetFileError _ _ _ _ host;
     InplaceFileError := InplaceFileError _ _ _ _ host;
     errorToOutput := print;
     Markdown_new := Markdown_new _ _ _ _ host;
     maker_evaluate := maker_evaluate _ _ _ _ host;
     generateOutput := generateOutput _ _ _ _ host;
     wrapper := wrapper _ _ _ _ host;
     Stats_new := Stats_new host;
     addSuccess := addSuccess _ _ _ _ host;
     addError := addError _ _ _ _ host |}.

(** The host with another glob. *)
Definition with_glob (g : string -> JS.value -> promise world exn (list string))
  : collaborators world exn maker Stats :=
  {| fs_readFile := fs_readFile _ _ _ _ host;
     fs_writeFile := fs_writeFile _ _ _ _ host;
     fsExtra_ensureDir := fsExtra_ensureDir _ _ _ _ host;
     glob := g;
     path_basename := path_basename _ _ _ _ host;
     path_dirname := path_dirname _ _ _ _ host;
     path_join := path_join _ _ _ _ host;
     invalid_path := invalid_path _ _ _ _ host;
     undefined_payload := undefined_payload _ _ _ _ host;
     SourceFileError := SourceFileError _ _ _ _ host;
     TargetFileError := TargetFileError _ _ _ _ host;
     InplaceFileError := InplaceFileError _ _ _ _ host;
     errorToOutput := errorToOutput _ _ _ _ host;
     Markdown_new := Markdown_new _ _ _ _ host;
     maker_evaluate := maker_evaluate _ _ _ _ host;
     generateOutput := generateOutput _ _ _ _ host;
     wrapper := wrapper _ _ _ _ host;
     Stats_new := Stats_new host;
     addSuccess := addSuccess _ _ _ _ host;
     addError := addError _ _ _ _ host |}.

(** The host in which evaluating a document behaves otherwise. *)
Definition with_maker_evaluate
           (ev : maker -> string -> string -> list (string * JS.value)
                 -> promise world exn unit)
  : collaborators world exn maker Stats :=
  {| fs_readFile := fs_readFile _ _ _ _ host;
     fs_writeFile := fs_writeFile _ _ _ _ host;
     fsExtra_ensureDir := fsExtra_ensureDir _ _ _ _ host;
     glob := glob host;
     path_basename := path_basename _ _ _ _ host;
     path_dirname := path_dirname _ _ _ _ host;
     path_join := path_join _ _ _ _ host;
     invalid_path := invalid_path _ _ _ _ host;
     undefined_payload := undefined_payload _ _ _ _ host;
     SourceFileError := SourceFileError _ _ _ _ host;
     TargetFileError := TargetFileError _ _ _ _ host;
     InplaceFileError := InplaceFileError _ _ _ _ host;
     errorToOutput := errorToOutput _ _ _ _ host;
     Markdown_new := Markdown_new _ _ _ _ host;
     maker_evaluate := ev;
     generateOutput := generateOutput _ _ _ _ host;
     wrapper := wrapper _ _ _ _ host;
     Stats_new := Stats_new host;
     addSuccess := addSuccess _ _ _ _ host;
     addError := addError _ _ _ _ host |}.

End Overrides.

(** [typeof v === "string"] *)
Definition is_string (v : JS.value) : bool :=
  match v with
  | JS.Str _ => true
  | _ => false
  end.

(** Whether a source output was produced. *)
Definition has_sourceOutput (o : output_pair) : bool :=
  match sourceOutput o with
  | Some _ => true
  | None => false
  end.

(** The example host on a disk that refuses every write. *)
Definition read_only_host
  : collaborators (list string) string string (list (string * option string)) :=
  with_fs_writeFile example_host (fun _ _ w => (RejectedWith "EACCES", w)).

(** The example host whose printer of errors throws. *)
Definition failing_printer_host
  : collaborators (list string) string string (list (string * option string)) :=
  with_errorToOutput example_host (fun _ => RejectedWith "TypeError: inspect").

(** The example host whose glob fails. *)
Definition no_directory_host
  : collaborators (list string) string string (list (string * option string)) :=
  with_glob example_host (fun _ _ w => (RejectedWith "ENOTDIR", w)).

(** The example host in which evaluating any document fails. *)
Definition failing_evaluation_host
  : collaborators (list string) string string (list (string * option string)) :=
  with_maker_evaluate example_host
    (fun _ _ _ _ w => (RejectedWith "FileEvaluationError", w)).

(** The example instance in update mode, rendering markdown. *)
Definition updating_evaldown : evaldown :=
  {| capture := "return";
     formatName := "markdown";
     marker := "evaldown";
     preamble := None;
     inplace := false;
     update := true;
     requirePath := JS.Undefined;
     sourcePath := JS.Str "docs";
     targetPath := JS.Str "site";
     tsconfigPath := JS.Undefined;
     sourceExtension := ".md";
     targetExtension := ".md";
     fileGlobals := [] |}.

(** The example instance with no target path: nothing to write. *)
Definition checking_evaldown : evaldown :=
  {| capture := "return";
     formatName := "html";
     marker := "evaldown";
     preamble := None;
     inplace := false;
     update := false;
     requirePath := JS.Undefined;
     sourcePath := JS.Str "docs";
     targetPath := JS.Undefined;
     tsconfigPath := JS.Undefined;
     sourceExtension := ".md";
     targetExtension := ".html";
     fileGlobals := [] |}.

(** The example instance built from options without a source path. *)
Definition pathless_evaldown : evaldown :=
  {| capture := "return";
     formatName := "html";
     marker := "evaldown";
     preamble := None;
     inplace := false;
     update := false;
     requirePath := JS.Undefined;
     sourcePath := JS.Undefined;
     targetPath := JS.Str "site";
     tsconfigPath := JS.Undefined;
     sourceExtension := ".md";
     targetExtension := ".html";
     fileGlobals := [] |}.

(** The example instance whose target path is a number. *)
Definition numbered_target_evaldown : evaldown :=
  {| capture := "return";
     formatName := "html";
     marker := "evaldown";
     preamble := None;
     inplace := false;
     update := false;
     requirePath := JS.Undefined;
     sourcePath := JS.Str "docs";
     targetPath := JS.Num 7;
     tsconfigPath := JS.Undefined;
     sourceExtension := ".md";
     targetExtension := ".html";
     fileGlobals := [] |}.

(** A prepared file of the example batch. *)
Definition example_prepared : prepared :=
  {| sourceFile := "a.md";
     sourceBaseName := "a";
     sourceDirName := ".";
     sourceFilePath := "docs/a.md";
     outputs := {| targetOutput := "# title"; sourceOutput := Some "# title" |} |}.

End EvaldownHosts.

(** * Theorems *)

(** ** Console capture *)

Module InspectedConsoleFacts.

Import InspectedConsole.

Lemma escape_char_literal (c : ascii) :
  (if escaped_class c then escape_match c else String c "") = literal_escape c.
Proof.
  destruct c as [[] [] [] [] [] [] [] []]; vm_compute; reflexivity.
Qed.

Lemma escape_literal (s : string) : escape s = literal_escape_all s.
Proof.
  unfold escape. induction s as [|c rest IH]; simpl.
  - reflexivity.
  - rewrite escape_char_literal, IH. reflexivity.
Qed.

Lemma append_empty_r (s : string) : (s ++ "")%string = s.
Proof. induction s as [|c s IH]; simpl; [reflexivity | now rewrite IH]. Qed.

Lemma append_assoc (a b c : string) :
  ((a ++ b) ++ c)%string = (a ++ (b ++ c))%string.
Proof. induction a as [|x a IH]; simpl; [reflexivity | now rewrite IH]. Qed.

Lemma concat_empty_cons (x : string) (xs : list string) :
  String.concat "" (x :: xs) = (x ++ String.concat "" xs)%string.
Proof.
  destruct xs as [|y ys]; simpl.
  - now rewrite append_empty_r.
  - reflexivity.
Qed.

Lemma concat_empty_app (xs ys : list string) :
  String.concat "" (xs ++ ys)
  = (String.concat "" xs ++ String.concat "" ys)%string.
Proof.
  induction xs as [|x xs IH].
  - reflexivity.
  - change ((x :: xs) ++ ys) with (x :: (xs ++ ys)).
    rewrite !concat_empty_cons, IH, append_assoc. reflexivity.
Qed.

Section Text.

Variable inspectText : JS.value -> nat -> string.

Lemma pen_toString_app (a b : pen) :
  pen_toString inspectText (a ++ b)
  = (pen_toString inspectText a ++ pen_toString inspectText b)%string.
Proof. unfold pen_toString. rewrite map_app. apply concat_empty_app. Qed.

(** Each further line goes after one newline. *)
Lemma toString_remaining (remaining : list pen) (out : pen) :
  pen_toString inspectText
    (fold_left (fun o l => append (nl o) l) remaining out)
  = (pen_toString inspectText out
     ++ String.concat ""
          (map (fun l => String LF (pen_toString inspectText l)) remaining))%string.
Proof.
  revert out. induction remaining as [|l rest IH]; intros out.
  - simpl. now rewrite append_empty_r.
  - cbn [fold_left map]. rewrite IH, concat_empty_cons.
    unfold append, nl. rewrite !pen_toString_app, !append_assoc.
    reflexivity.
Qed.

Lemma concat_newline_cons (x : string) (xs : list string) :
  String.concat (String LF "") (x :: xs)
  = (x ++ String.concat "" (map (fun l => String LF l) xs))%string.
Proof.
  revert x. induction xs as [|y ys IH]; intros x.
  - simpl. now rewrite append_empty_r.
  - change (String.concat (String LF "") (x :: y :: ys))
      with (x ++ String LF "" ++ String.concat (String LF "") (y :: ys))%string.
    rewrite IH. cbn [map]. rewrite concat_empty_cons. reflexivity.
Qed.

Lemma toString_joined (c : console) :
  toString inspectText c
  = String.concat (String LF "") (map (pen_toString inspectText) (output c)).
Proof.
  unfold toString. destruct (output c) as [|first_line remaining].
  - reflexivity.
  - rewrite toString_remaining. cbn [map]. rewrite concat_newline_cons.
    unfold append, clone. cbn [app]. rewrite map_map. reflexivity.
Qed.

(** C7.  Serializing a console with no recorded line (a new one, or one
    that was reset) gives the empty string; serializing any console gives its recorded lines, oldest
    first, joined by single newlines; a string handed to [line] is
    recorded, after the lines already there, as a quote, the string
    with every character escaped as in a JavaScript string literal
    (backslash, quote and the named control characters by their letter,
    any other control character as backslash-x and two hexadecimal
    digits, anything else unchanged), and a closing quote. *)
Theorem inspected_console_serialization :
  toString inspectText InspectedConsole.new = ""
  /\ (forall c : console, toString inspectText (reset c) = "")
  /\ (forall c : console,
         toString inspectText c
         = String.concat (String LF "")
             (map (pen_toString inspectText) (output c)))
  /\ (forall (out : stream) (s : string) (c : console),
         output (line out (JS.Str s) c)
         = output c ++ [stringToOutput s expect_output (is_stderr out)]
         /\ pen_toString inspectText
              (stringToOutput s expect_output (is_stderr out))
            = ("'" ++ literal_escape_all s ++ "'")%string).
Proof.
  split; [reflexivity|]. split; [reflexivity|]. split; [exact toString_joined|].
  intros out s c. split; [reflexivity|].
  unfold stringToOutput, pen_toString, clone. cbn [app map entry_toString].
  rewrite escape_literal. reflexivity.
Qed.

End Text.

(** C10, as the code has it.  A console method whose first argument is a
    string records that string alone, escaped and quoted, whatever
    follows it; otherwise it records one line per argument, in order: an
    argument that is not a string is inspected to depth 6, an argument
    that is a string is escaped and quoted like a leading one. *)
Theorem console_method_records
        (out : stream) (first : JS.value) (rest : list JS.value)
        (con : console) :
  output (makeBoundConsoleMethod out (first :: rest) con)
  = output con
      ++ match first with
         | JS.Str s => [stringToOutput s expect_output (is_stderr out)]
         | _ => map (recorded_line out) (first :: rest)
         end.
Proof.
  assert (Hfold : forall (vs : list JS.value) (c : console),
             output (fold_left (fun c obj => line out obj c) vs c)
             = output c ++ map (recorded_line out) vs).
  { induction vs as [|v vs IH]; intros c; simpl.
    - now rewrite app_nil_r.
    - rewrite IH. unfold line. cbn [output]. rewrite <- app_assoc.
      reflexivity. }
  unfold makeBoundConsoleMethod. cbn [hd tl].
  destruct first; try apply Hfold. reflexivity.
Qed.

(** The statement of C10 fails when a string follows a first argument
    that is not a string: [console.log(1, "a")] records the second line
    through [stringToOutput], not through [inspect]. *)
Lemma console_method_inspects_all_refuted :
  output (log [JS.Num 1; JS.Str "a"] InspectedConsole.new)
  <> output InspectedConsole.new
       ++ map (fun v => inspect v 6) [JS.Num 1; JS.Str "a"].
Proof. vm_compute. discriminate. Qed.

(** A call without arguments records one line, for [undefined]. *)
Lemma console_method_no_arguments (out : stream) (con : console) :
  output (makeBoundConsoleMethod out [] con)
  = output con ++ [inspect JS.Undefined 6].
Proof. reflexivity. Qed.

End InspectedConsoleFacts.

(** ** Extension validation and the batch run *)

Module EvaldownFacts.

Import Evaldown.

(** C8.  [isValidExtension] returns the regular-expression object, a
    truthy value, for every string, and [false] for everything else; so
    the constructor keeps every string it is given as source or target
    extension. *)
Theorem isValidExtension_returns_regexp :
  (forall v : JS.value,
      isValidExtension v
      = match v with
        | JS.Str _ => JS.RegExp extension_pattern
        | _ => JS.Bool false
        end)
  /\ (forall s : string,
         JS.truthy (isValidExtension (JS.Str s)) = true
         /\ resolve_sourceExtension (JS.Str s) = JS.Str s
         /\ forall fmt : format,
             resolve_targetExtension fmt (JS.Str s) = JS.Str s).
Proof.
  split.
  - intros v. destruct v; reflexivity.
  - intros s. repeat split.
Qed.

Section BatchFacts.

Context {world exn maker Stats : Type}.
Variable host : collaborators world exn maker Stats.
Variable ev : evaldown.

(** The two Stats methods and the printer of errors return, for every
    argument, instead of throwing. *)
Variable added : string -> Stats -> Stats.
Variable failed : string -> exn -> Stats -> Stats.
Hypothesis addSuccess_returns :
  forall file stats,
    addSuccess _ _ _ _ host file stats = (Fulfilled tt, added file stats).
Hypothesis addError_returns :
  forall file e stats,
    addError _ _ _ _ host file e stats = (Fulfilled tt, failed file e stats).
Hypothesis errorToOutput_returns :
  forall e, exists text, errorToOutput _ _ _ _ host e = Fulfilled text.

(** The loop ends normally whatever the files do, with one record per
    file. *)
Lemma processFiles_loop_outcomes (files : list string) (stats : Stats)
      (w : world) :
  processFiles_loop host ev files stats w
  = (Fulfilled (fold_left (record_outcome added failed)
                          (fst (outcomes host ev files w)) stats),
     snd (outcomes host ev files w)).
Proof.
  revert stats w. induction files as [|file files IH]; intros stats w.
  - reflexivity.
  - cbn [processFiles_loop outcomes]. unfold bind at 1, loop_body.
    destruct (processFile host ev file w) as [[[]|e] w1].
    + rewrite addSuccess_returns, IH.
      destruct (outcomes host ev files w1) as [rest w2]. reflexivity.
    + unfold catch_block. rewrite addError_returns.
      unfold bind, settle, ret.
      destruct (errorToOutput_returns e) as [text ->].
      rewrite IH. destruct (outcomes host ev files w1) as [rest w2].
      reflexivity.
Qed.

Lemma outcomes_cover (files : list string) (w : world) :
  map fst (fst (outcomes host ev files w)) = files.
Proof.
  revert w. induction files as [|file files IH]; intros w.
  - reflexivity.
  - cbn [outcomes]. destruct (processFile host ev file w) as [c w1].
    specialize (IH w1). destruct (outcomes host ev files w1) as [rest w2].
    cbn in *. now rewrite IH.
Qed.


End BatchFacts.


End EvaldownFacts.

(** ** The snippet extractor *)

Module ExtractSnippetsFacts.

Import Flags ExtractSnippets.

(** *** Strings *)

Lemma rev_string_involutive (s acc acc' : string) :
  rev_string (rev_string s acc) acc' = rev_string acc (s ++ acc')%string.
Proof.
  revert acc acc'. induction s as [|c s IH]; intros acc acc'; simpl.
  - reflexivity.
  - now rewrite IH.
Qed.

Lemma all_chars_rev (p : ascii -> bool) (s acc : string) :
  all_chars p (rev_string s acc) = all_chars p s && all_chars p acc.
Proof.
  revert acc. induction s as [|c s IH]; intros acc; simpl.
  - reflexivity.
  - rewrite IH. simpl. destruct (p c), (all_chars p s); reflexivity.
Qed.

Lemma trim_start_no_space (s : string) :
  all_chars (fun c => negb (is_space c)) s = true -> trim_start s = s.
Proof.
  destruct s as [|c s]; simpl; [reflexivity|].
  destruct (is_space c); [discriminate | reflexivity].
Qed.

Lemma append_empty (s : string) : (s ++ "")%string = s.
Proof. induction s as [|c s IH]; simpl; [reflexivity | now rewrite IH]. Qed.

Lemma trim_no_space (s : string) :
  all_chars (fun c => negb (is_space c)) s = true -> trim s = s.
Proof.
  intros H. unfold trim, trim_end. rewrite (trim_start_no_space s H).
  rewrite trim_start_no_space.
  - rewrite rev_string_involutive. simpl. apply append_empty.
  - rewrite all_chars_rev, H. reflexivity.
Qed.

Lemma all_chars_weaken (p q : ascii -> bool) (s : string) :
  (forall c, p c = true -> q c = true) ->
  all_chars p s = true -> all_chars q s = true.
Proof.
  intros Hpq. induction s as [|c s IH]; simpl; [reflexivity|].
  intros [Hc Hs]%andb_prop. now rewrite (Hpq c Hc), IH.
Qed.

Lemma word_char_no_space (c : ascii) :
  word_char c = true -> negb (is_space c) = true.
Proof. unfold word_char. now intros [[H _]%andb_prop _]%andb_prop. Qed.

Lemma word_char_no_comma (c : ascii) :
  word_char c = true -> other_than "," c = true.
Proof. unfold word_char. now intros [[_ H]%andb_prop _]%andb_prop. Qed.

Lemma word_char_no_colon (c : ascii) :
  word_char c = true -> other_than ":" c = true.
Proof. unfold word_char. now intros [_ H]%andb_prop. Qed.

Lemma flag_word_inv (s : string) :
  flag_word s = true ->
  String.eqb s "" = false /\ all_chars word_char s = true.
Proof.
  unfold flag_word. intros [H1 H2]%andb_prop. split; [|exact H2].
  now destruct (String.eqb s "").
Qed.

Lemma cut_first_app (sep : ascii) (k v : string) :
  all_chars (other_than sep) k = true ->
  cut_first sep (k ++ String sep v) = Some (k, v).
Proof.
  induction k as [|c k IH]; simpl.
  - intros _. now rewrite Ascii.eqb_refl.
  - intros [Hc Hk]%andb_prop. unfold other_than in Hc.
    destruct (Ascii.eqb c sep); [discriminate|]. now rewrite IH.
Qed.

Lemma split_on_single (sep : ascii) (s : string) :
  all_chars (other_than sep) s = true -> split_on sep s = [s].
Proof.
  induction s as [|c s IH]; simpl; [reflexivity|].
  intros [Hc Hs]%andb_prop. unfold other_than in Hc.
  destruct (Ascii.eqb c sep); [discriminate|]. now rewrite IH.
Qed.

Lemma split_on_app (sep : ascii) (a rest : string) :
  all_chars (other_than sep) a = true ->
  split_on sep (a ++ String sep rest) = a :: split_on sep rest.
Proof.
  induction a as [|c a IH]; simpl.
  - intros _. now rewrite Ascii.eqb_refl.
  - intros [Hc Ha]%andb_prop. unfold other_than in Hc.
    destruct (Ascii.eqb c sep); [discriminate|]. now rewrite IH.
Qed.

Lemma all_chars_app (p : ascii -> bool) (a b : string) :
  all_chars p (a ++ b) = all_chars p a && all_chars p b.
Proof.
  induction a as [|c a IH]; simpl; [reflexivity|].
  rewrite IH. now destruct (p c).
Qed.

(** *** The flag parser on well-formed text *)

Lemma parse_item_well_formed (k v : string) :
  flag_word k = true -> flag_word v = true ->
  parse_item (render_item (k, v)) = Some (k, coerce v).
Proof.
  intros [Hk Hkw]%flag_word_inv [Hv Hvw]%flag_word_inv.
  unfold parse_item, render_item. cbn [fst snd].
  rewrite cut_first_app
    by (eapply all_chars_weaken; [apply word_char_no_colon | exact Hkw]).
  rewrite !trim_no_space
    by (eapply all_chars_weaken; [apply word_char_no_space | eassumption]).
  now rewrite Hk, Hv.
Qed.

Lemma render_item_no_comma (k v : string) :
  flag_word k = true -> flag_word v = true ->
  all_chars (other_than ",") (render_item (k, v)) = true.
Proof.
  intros [_ Hkw]%flag_word_inv [_ Hvw]%flag_word_inv.
  unfold render_item. cbn [fst snd]. rewrite all_chars_app. simpl.
  rewrite (all_chars_weaken _ _ k word_char_no_comma Hkw).
  now rewrite (all_chars_weaken _ _ v word_char_no_comma Hvw).
Qed.

Lemma parse_items_well_formed (kvs : list (string * string)) :
  kvs <> [] ->
  Forall (fun kv => flag_word (fst kv) = true /\ flag_word (snd kv) = true) kvs ->
  parse_items (split_on "," (render_items kvs))
  = Some (map (fun kv => (fst kv, coerce (snd kv))) kvs).
Proof.
  induction kvs as [|[k v] rest IH]; [congruence|].
  intros _ Hall. inversion Hall as [|? ? [Hk Hv] Hrest]; subst.
  cbn [fst snd] in Hk, Hv.
  destruct rest as [|kv' rest'].
  - cbn [render_items]. rewrite split_on_single by now apply render_item_no_comma.
    cbn [parse_items]. now rewrite parse_item_well_formed.
  - change (render_items ((k, v) :: kv' :: rest'))
      with (render_item (k, v) ++ String "," (render_items (kv' :: rest')))%string.
    rewrite split_on_app by now apply render_item_no_comma.
    cbn [parse_items]. rewrite parse_item_well_formed by assumption.
    rewrite IH by (congruence || assumption). reflexivity.
Qed.

Lemma assign_all_other (kvs : list (string * flag)) (m : gmap string flag)
      (k : string) :
  ~ In k (map fst kvs) -> assign_all kvs m !! k = m !! k.
Proof.
  revert m. induction kvs as [|[k' v'] kvs IH]; intros m Hk; [reflexivity|].
  unfold assign_all in *. cbn [fold_left fst snd].
  rewrite IH by (intros Hin; apply Hk; right; exact Hin).
  apply lookup_insert_ne. intros ->. apply Hk. now left.
Qed.

Lemma assign_all_lookup (kvs : list (string * flag)) (m : gmap string flag)
      (k : string) (v : flag) :
  NoDup (map fst kvs) -> In (k, v) kvs -> assign_all kvs m !! k = Some v.
Proof.
  revert m. induction kvs as [|[k' v'] kvs IH]; intros m Hnd Hin; [destruct Hin|].
  apply NoDup_cons in Hnd as [Hnotin Hnd'].
  unfold assign_all in *. cbn [fold_left fst snd].
  destruct Hin as [Heq | Hin].
  - inversion Heq; subst.
    change (assign_all kvs (<[k:=v]> m) !! k = Some v).
    rewrite assign_all_other.
    + apply lookup_insert_eq.
    + rewrite <- list_elem_of_In. exact Hnotin.
  - now apply IH.
Qed.

Lemma parseFlags_well_formed (kvs : list (string * string)) (k v : string) :
  well_formed_items kvs -> In (k, v) kvs ->
  parseFlags (render_items kvs) !! k = Some (coerce v).
Proof.
  intros (Hne & Hall & Hnd) Hin. unfold parseFlags.
  rewrite parse_items_well_formed by assumption.
  apply assign_all_lookup.
  - rewrite map_map. cbn [fst]. exact Hnd.
  - apply (in_map (fun kv => (fst kv, coerce (snd kv))) _ _ Hin).
Qed.

Lemma parseSnippetInfo_suffix (language suffix : string) :
  all_chars (other_than "#") language = true ->
  parseSnippetInfo (language ++ String "#" suffix)
  = (normalize_lang language, Some suffix).
Proof.
  intros H. unfold parseSnippetInfo. now rewrite cut_first_app.
Qed.

(** *** The expectations of the extractor's test-suite *)

Example suite_code_between_sections :
  map code (extractSnippets None document_sections) = [alert_hello].
Proof. vm_compute. reflexivity. Qed.

Example suite_two_snippets_in_order :
  map code (extractSnippets None document_two_fences)
  = [alert_hello;
     ("alert(" ++ double_quote ++ "world!" ++ double_quote ++ ");")%string].
Proof. vm_compute. reflexivity. Qed.

Example suite_js_is_javascript :
  map lang (extractSnippets None (suite_document [] "js")) = ["javascript"].
Proof. vm_compute. reflexivity. Qed.

Example suite_evaluate_defaults_to_true :
  flag_values None (suite_document [] "js") "evaluate" = [Some (FBool true)].
Proof. vm_compute. reflexivity. Qed.

Example suite_evaluate_false_in_suffix :
  flag_values None (suite_document [] "js#evaluate:false") "evaluate"
  = [Some (FBool false)].
Proof. vm_compute. reflexivity. Qed.

Example suite_evaluate_false_in_comment :
  flag_values None (suite_document ["<!-- evaluate:false -->"] "js") "evaluate"
  = [Some (FBool false)].
Proof. vm_compute. reflexivity. Qed.

Example suite_flags_in_suffix :
  flag_values None (suite_document [] "js#foo:true,bar:false") "foo"
  = [Some (FBool true)]
  /\ flag_values None (suite_document [] "js#foo:true,bar:false") "bar"
     = [Some (FBool false)].
Proof. split; vm_compute; reflexivity. Qed.

Example suite_flags_in_comment :
  flag_values None (suite_document ["<!-- foo:true,bar:false -->"] "js") "foo"
  = [Some (FBool true)]
  /\ flag_values None (suite_document ["<!-- foo:true,bar:false -->"] "js") "bar"
     = [Some (FBool false)].
Proof. split; vm_compute; reflexivity. Qed.

Example suite_flags_in_comment_with_whitespace :
  flag_values None
    (suite_document ["<!-- foo : true , bar : false -->"] "js") "foo"
  = [Some (FBool true)]
  /\ flag_values None
       (suite_document ["<!-- foo : true , bar : false -->"] "js") "bar"
     = [Some (FBool false)].
Proof. split; vm_compute; reflexivity. Qed.

Example suite_flags_from_both_places :
  flag_values None (suite_document ["<!-- foo:true -->"] "js#bar:false") "foo"
  = [Some (FBool true)]
  /\ flag_values None (suite_document ["<!-- foo:true -->"] "js#bar:false") "bar"
     = [Some (FBool false)].
Proof. split; vm_compute; reflexivity. Qed.

Example suite_suffix_wins :
  flag_values None document_both_sources "foo" = [Some (FBool false)].
Proof. vm_compute. reflexivity. Qed.

Example suite_index_of_the_block :
  map index (extractSnippets None document_plain) = [7].
Proof. vm_compute. reflexivity. Qed.

(** "skips past a preceding HTML comment when providing the index": the
    comment of that document carries no marker, and is no directive
    comment. *)
Example suite_index_skips_a_plain_comment :
  map index (extractSnippets None document_with_comment) = [25]
  /\ map directive (scan None document_with_comment) = [None].
Proof. split; vm_compute; reflexivity. Qed.

(** The collection's suite, "Snippets.fromMarkdown() should extract the
    snippets", with the marker [evaldown]: the second block is indexed at
    its directive comment (offset 148), not at its fence (offset 187). *)
Example suite_fromMarkdown_indices :
  map index (extractSnippets (Some "evaldown") document_fromMarkdown)
  = [24; 148]
  /\ map fence_offset (scan (Some "evaldown") document_fromMarkdown)
     = [24; 187].
Proof. split; vm_compute; reflexivity. Qed.

Example suite_fromMarkdown_languages :
  map lang (extractSnippets (Some "evaldown") document_fromMarkdown)
  = ["javascript"; "output"].
Proof. vm_compute. reflexivity. Qed.

Example suite_fromMarkdown_flags :
  flag_values (Some "evaldown") document_fromMarkdown "cleanStackTrace"
  = [None; Some (FBool true)]
  /\ flag_values (Some "evaldown") document_fromMarkdown "evaluate"
     = [Some (FBool true); Some (FBool true)].
Proof. split; vm_compute; reflexivity. Qed.

(** With a marker configured, a comment that does not begin with it gives
    no flags and does not move the index. *)
Example unmarked_comment_is_ignored :
  flag_values (Some "evaldown") document_both_sources "foo"
  = [Some (FBool false)]
  /\ flag_values (Some "evaldown")
       (suite_document ["<!-- foo:true -->"] "js") "foo" = [None]
  /\ map index (extractSnippets (Some "evaldown") document_with_comment)
     = [25].
Proof. repeat split; vm_compute; reflexivity. Qed.

(** *** Offsets *)

Lemma starts_with_trans (a b c : string) :
  starts_with a b = true -> starts_with b c = true -> starts_with a c = true.
Proof.
  revert b c. induction a as [|x a IH]; intros b c; [reflexivity|].
  destruct b as [|y b]; [discriminate|]. destruct c as [|z c]; [discriminate|].
  simpl. intros [Hxy Hab]%andb_prop [Hyz Hbc]%andb_prop.
  apply Ascii.eqb_eq in Hxy, Hyz. subst. rewrite Ascii.eqb_refl. simpl.
  exact (IH b c Hab Hbc).
Qed.

(** Every line starts, in the text, at the offset recorded for it. *)
Lemma line_offsets (s : string) (base offset : nat) (l : string) :
  In (offset, l) (with_offsets base (split_on LF s)) ->
  exists d, offset = base + d /\ starts_with l (skip d s) = true.
Proof.
  revert base offset l. induction s as [|c rest IH]; intros base offset l Hin.
  - destruct Hin as [H|[]]. inversion H; subst. exists 0. split; [lia|reflexivity].
  - cbn [split_on] in Hin. destruct (Ascii.eqb c LF) eqn:Hc.
    + destruct Hin as [H|Hin].
      * inversion H; subst. exists 0. split; [lia|reflexivity].
      * apply IH in Hin as (d & -> & Hp). exists (S d).
        cbn [String.length]. split; [lia|exact Hp].
    + destruct (split_on LF rest) as [|piece pieces] eqn:Hsplit.
      * destruct Hin as [H|[]]. inversion H; subst. exists 0.
        split; [lia|]. simpl. now rewrite Ascii.eqb_refl.
      * destruct Hin as [H|Hin].
        -- inversion H; subst. exists 0. split; [lia|].
           simpl. rewrite Ascii.eqb_refl. simpl.
           destruct (IH 0 0 piece (or_introl eq_refl)) as (d & Hd & Hp).
           assert (d = 0) as -> by lia. exact Hp.
        -- cbn [String.length] in Hin.
           destruct (IH (S base) offset l) as (d & -> & Hp).
           { right.
             replace (S base + String.length piece + 1)
               with (base + S (String.length piece) + 1) by lia.
             exact Hin. }
           exists (S d). split; [lia|exact Hp].
Qed.

Lemma comment_body_starts (l body : string) :
  comment_body l = Some body -> starts_with "<!--" l = true.
Proof.
  unfold comment_body. destruct (starts_with "<!--" l); [reflexivity|].
  discriminate.
Qed.

Lemma classify_offset (marker : option string) (offset : nat) (body : string)
      (c : comment) :
  classify marker offset body = Some c -> comment_offset c = offset.
Proof.
  unfold classify. destruct marker as [m|].
  - destruct (strip_marker m body); [|discriminate].
    intros H. inversion H. reflexivity.
  - intros H. inversion H. reflexivity.
Qed.

(** A comment is marked exactly when a marker is configured; its text is
    then what follows the marker in the body. *)
Lemma classify_marked (marker : option string) (offset : nat) (body : string)
      (c : comment) :
  classify marker offset body = Some c ->
  match marker with
  | Some m =>
      comment_marked c = true /\ strip_marker m body = Some (comment_text c)
  | None => comment_marked c = false /\ comment_text c = body
  end.
Proof.
  unfold classify. destruct marker as [m|].
  - destruct (strip_marker m body); [|discriminate].
    intros H. inversion H. split; reflexivity.
  - intros H. inversion H. split; reflexivity.
Qed.

(** What the scanner reports was found on a line of the text: the fence
    at a line that starts with the marker, the comment above it at an
    earlier line that is a comment and classifies as reported. *)
Lemma scan_lines_sound (marker : option string) (all : list (nat * string))
      (ls : list string) :
  forall (base : nat) (previous : option comment)
         (current : option open_fence),
    (forall x, In x (with_offsets base ls) -> In x all) ->
    (forall c, previous = Some c ->
               comment_at marker all c /\ comment_offset c < base) ->
    (forall o, current = Some o ->
               line_at all (open_offset o) fence_marker
               /\ open_offset o < base
               /\ forall c, open_above o = Some c ->
                            comment_at marker all c
                            /\ comment_offset c < open_offset o) ->
    forall f, In f (scan_lines marker (with_offsets base ls) previous current) ->
              line_at all (fence_offset f) fence_marker
              /\ forall c, above f = Some c ->
                           comment_at marker all c
                           /\ comment_offset c < fence_offset f.
Proof.
  induction ls as [|l ls IH]; intros base previous current Hall Hprev Hcur f Hin.
  - destruct Hin.
  - cbn [with_offsets scan_lines] in Hin.
    assert (Hhead : In (base, l) all) by (apply Hall; left; reflexivity).
    assert (Htail : forall x,
               In x (with_offsets (base + String.length l + 1) ls) -> In x all)
      by (intros x Hx; apply Hall; right; exact Hx).
    destruct current as [o|].
    + destruct (Hcur o eq_refl) as (Hline & Hlt & Hdir).
      destruct (String.eqb l fence_marker).
      * destruct Hin as [<-|Hin].
        -- cbn [fence_offset above]. split; assumption.
        -- apply (IH _ None None Htail); [discriminate | discriminate | exact Hin].
      * apply (IH _ _ _ Htail) in Hin; [exact Hin | discriminate |].
        intros o' Ho'. inversion Ho'; subst. cbn [open_offset open_above].
        split; [exact Hline|]. split; [lia | exact Hdir].
    + destruct (starts_with fence_marker l) eqn:Hfence.
      * apply (IH _ _ _ Htail) in Hin; [exact Hin | discriminate |].
        intros o' Ho'. inversion Ho'; subst. cbn [open_offset open_above].
        split; [exists l; split; assumption|]. split; [lia|].
        exact Hprev.
      * apply (IH _ _ _ Htail) in Hin; [exact Hin | | discriminate].
        intros c Hsome. unfold comment_of in Hsome.
        destruct (comment_body l) as [body|] eqn:Hcomment; [|discriminate].
        pose proof (classify_offset _ _ _ _ Hsome) as Hoff.
        split; [|lia].
        exists l, body. rewrite Hoff. repeat split; assumption.
Qed.

Lemma scan_sound (marker : option string) (markdown : string) (f : located) :
  In f (scan marker markdown) ->
  line_at (with_offsets 0 (split_on LF markdown)) (fence_offset f) fence_marker
  /\ forall c, above f = Some c ->
               comment_at marker (with_offsets 0 (split_on LF markdown)) c
               /\ comment_offset c < fence_offset f.
Proof.
  intros Hf.
  exact (scan_lines_sound marker (with_offsets 0 (split_on LF markdown))
           (split_on LF markdown) 0 None None
           (fun x H => H) ltac:(discriminate) ltac:(discriminate) f Hf).
Qed.

Lemma line_at_text (markdown : string) (offset : nat) (start : string) :
  line_at (with_offsets 0 (split_on LF markdown)) offset start ->
  starts_with start (skip offset markdown) = true.
Proof.
  intros (l & Hin & Hstart).
  apply line_offsets in Hin as (d & -> & Hl).
  exact (starts_with_trans _ _ _ Hstart Hl).
Qed.

Lemma comment_at_text (marker : option string) (markdown : string)
      (c : comment) :
  comment_at marker (with_offsets 0 (split_on LF markdown)) c ->
  starts_with "<!--" (skip (comment_offset c) markdown) = true.
Proof.
  intros (l & body & Hin & Hbody & _).
  apply line_at_text. exists l. split; [exact Hin|].
  exact (comment_body_starts l body Hbody).
Qed.

(** With a marker configured, the comment above a located fence is its
    directive comment. *)
Lemma above_is_directive (m : string) (markdown : string) (f : located)
      (c : comment) :
  In f (scan (Some m) markdown) -> above f = Some c ->
  directive f = Some (comment_offset c, comment_text c).
Proof.
  intros Hf Hc. destruct (scan_sound _ _ _ Hf) as (_ & Habove).
  destruct (Habove c Hc) as ((l & body & _ & _ & Hclass) & _).
  apply classify_marked in Hclass as (Hmarked & _).
  unfold directive. now rewrite Hc, Hmarked.
Qed.





End ExtractSnippetsFacts.

(** ** The snippet collection *)

Module SnippetsFacts.

Import Flags Snippets.

Lemma output_not_executable (b : block) :
  lang b = "output" -> is_output b = true /\ is_executable b = false.
Proof. unfold is_output, is_executable. intros ->. split; reflexivity. Qed.

Lemma executable_not_output (b : block) :
  is_executable b = true -> is_output b = false.
Proof.
  unfold is_executable, is_output.
  destruct (String.eqb_spec (lang b) "javascript") as [->|_]; [reflexivity|].
  destruct (String.eqb_spec (lang b) "typescript") as [->|_]; [reflexivity|].
  discriminate.
Qed.

(** C3.  On a collection whose only block is an output block, [check]
    returns, without throwing, the mapping with one entry, at position 0:
    a SnippetProcessingError wrapping an Error, both with the "no matching
    code block" message, which reads in full "no matching code block for
    output snippet"; [getTests] on the same collection throws an Error
    with that same message. *)
Theorem orphaned_output_block (b : block) :
  lang b = "output" ->
  check (new [b])
  = {[ 0 := {| message := no_matching_code_block;
               original := {| error_message := no_matching_code_block |} |} ]}
  /\ getTests (new [b]) = inl {| error_message := no_matching_code_block |}
  /\ no_matching_code_block = "no matching code block for output snippet"
  /\ ExtractSnippets.starts_with "no matching code block"
       no_matching_code_block = true.
Proof.
  intros Hlang. destruct (output_not_executable b Hlang) as [Hout _].
  unfold check, getTests, new. cbn. rewrite Hout. cbn.
  split; [apply insert_empty|]. repeat split.
Qed.

Lemma orphaned_output_block_witness :
  lang orphaned_output = "output"
  /\ check (new [orphaned_output]) !! 0
     = Some {| message := "no matching code block for output snippet";
               original :=
                 {| error_message :=
                      "no matching code block for output snippet" |} |}
  /\ getTests (new [orphaned_output])
     = inl {| error_message := "no matching code block for output snippet" |}.
Proof.
  split; [reflexivity|].
  destruct (orphaned_output_block orphaned_output eq_refl) as (Hcheck & Htests & _).
  split.
  - rewrite Hcheck. apply lookup_singleton_eq.
  - exact Htests.
Defined.

(** C4.  On a collection of exactly an executable block whose [hide]
    flag is [true] followed by an output block, [getTests] throws "cannot
    match hidden code block to output snippet", which is not the message
    thrown for an output block with nothing before it. *)
Theorem hidden_code_block_not_paired (hidden out : block) :
  is_executable hidden = true ->
  flags hidden !! "hide" = Some (FBool true) ->
  lang out = "output" ->
  getTests (new [hidden; out]) = inl {| error_message := hidden_code_block |}
  /\ hidden_code_block = "cannot match hidden code block to output snippet"
  /\ ExtractSnippets.starts_with "cannot match hidden code block"
       hidden_code_block = true
  /\ getTests (new [out]) = inl {| error_message := no_matching_code_block |}
  /\ hidden_code_block <> no_matching_code_block.
Proof.
  intros Hexec Hhide Hlang.
  destruct (output_not_executable out Hlang) as [Hout _].
  pose proof (executable_not_output hidden Hexec) as Hnot.
  assert (Hlocate : locate_code_block [hidden; out] 1
                    = inl {| error_message := hidden_code_block |}).
  { change (locate_code_block [hidden; out] 1)
      with (if is_executable hidden then
              if is_true (flags hidden) "hide"
              then inl {| error_message := hidden_code_block |}
              else inr hidden
            else inl {| error_message := no_matching_code_block |}).
    unfold is_true. now rewrite Hexec, Hhide. }
  split.
  - unfold getTests, new. cbn [items getTests_from].
    now rewrite Hnot, Hexec, Hout, Hlocate.
  - split; [reflexivity|]. split; [reflexivity|]. split; [|discriminate].
    unfold getTests, new. cbn [items getTests_from]. now rewrite Hout.
Qed.

Lemma hidden_code_block_not_paired_witness :
  is_executable hidden_code = true
  /\ flags hidden_code !! "hide" = Some (FBool true)
  /\ getTests (new [hidden_code; misplaced_output])
     = inl {| error_message :=
                "cannot match hidden code block to output snippet" |}.
Proof.
  split; [reflexivity|]. split; [vm_compute; reflexivity|].
  exact (proj1 (hidden_code_block_not_paired hidden_code misplaced_output
                  eq_refl ltac:(vm_compute; reflexivity) eq_refl)).
Defined.

(** *** The expectations of the collection's test-suite *)

Example suite_get_by_index :
  get (new testSnippets) 1 = Some test_output_block.
Proof. reflexivity. Qed.

Example suite_getTests_combines_pairs :
  getTests (new testSnippets)
  = inr [{| test_code := code test_code_block;
            test_flags := {["evaluate" := FBool true]};
            test_output := Some test_output_text |}].
Proof. vm_compute. reflexivity. Qed.

Example suite_evaluate_rejects_second_call :
  let first :=
    evaluate (list string) journal_run (fun _ c => c) (fun t => t)
             (Some no_options) (new []) [] in
  fst (fst first) = Resolved
  /\ fst (fst (evaluate (list string) journal_run (fun _ c => c) (fun t => t)
                        None (snd (fst first)) (snd first)))
     = Rejected (PlainError
                   {| error_message := "the same snippets were evaluated twice" |}).
Proof. split; vm_compute; reflexivity. Qed.

Example suite_evaluate_wraps_errors :
  match fst (fst (evaluate (list string) journal_run (fun _ c => c) (fun t => t)
                           (Some no_options) (new [orphaned_output]) [])) with
  | Rejected (FileEvaluationError errors as r) =>
      rejection_message r = ""
      /\ errors !! 0
         = Some (wrap {| error_message := no_matching_code_block |})
  | _ => False
  end.
Proof. vm_compute. split; reflexivity. Qed.

Section EngineFacts.

Context {scope : Type}.
Variable run : capture_mode -> bool -> string -> scope -> run_result * scope.
Variable compile_typescript : string -> string -> string.
Variable cleanStackTrace : string -> string.

Local Abbreviation evaluate :=
  (evaluate scope run compile_typescript cleanStackTrace).
Local Abbreviation run_blocks :=
  (run_blocks scope run compile_typescript cleanStackTrace).
Local Abbreviation run_preamble := (run_preamble scope run).

Lemma evaluate_marks (supplied : option options) (s : snippets) (sc : scope) :
  evaluated (snd (fst (evaluate supplied s sc))) = true.
Proof.
  unfold Snippets.evaluate. destruct (evaluated s) eqn:Hguard; [exact Hguard|].
  destruct (run_blocks _ _ _ _ _) as [[[blocks errors] sc'] ending].
  destruct ending; try reflexivity; destruct (decide (errors = ∅)); reflexivity.
Qed.

(** C2.  Whatever the first call to [evaluate] was given and however it
    ended, a second call on the collection it left behind, with any
    options or none, is rejected with "the same snippets were evaluated
    twice" and hands the collection back as it was: the blocks and what
    the first call recorded on them are untouched, and nothing is run. *)
Theorem evaluate_is_single_shot
        (supplied again : option options) (s : snippets) (sc sc' : scope) :
  let after := snd (fst (evaluate supplied s sc)) in
  evaluate again after sc'
  = (Rejected (PlainError {| error_message := evaluated_twice |}), after, sc')
  /\ evaluated_twice = "the same snippets were evaluated twice".
Proof.
  intros after. split; [|reflexivity].
  pose proof (evaluate_marks supplied s sc) as Hmarked. fold after in Hmarked.
  unfold Snippets.evaluate at 1. now rewrite Hmarked.
Qed.

Lemma typescript_is_executable (b : block) :
  lang b = "typescript" -> is_executable b = true /\ is_typescript b = true.
Proof. unfold is_executable, is_typescript. intros ->. split; reflexivity. Qed.

(** A run that gets past the blocks [before] stops at a block whose
    configuration is refused: that block and the ones after it are left
    as they are, and the scope is the one the earlier blocks left. *)
Lemma run_blocks_misconfigured
      (opts : options) (b : block) (after : list block) (e : Error) :
  is_executable b = true ->
  truthy (flags b) "evaluate" = true ->
  check_configuration opts b = Some e ->
  forall (before before' : list block) (position : nat)
         (errors errors' : gmap nat SnippetProcessingError) (sc sc' : scope),
    run_blocks opts position before errors sc
    = (before', errors', sc', Finished) ->
    run_blocks opts position (before ++ b :: after) errors sc
    = (before' ++ b :: after, errors', sc', Misconfigured e).
Proof.
  intros Hexec Hflag Hcheck.
  induction before as [|a before IH];
    intros before' position errors errors' sc sc' Hrun.
  - cbn [Snippets.run_blocks] in Hrun. inversion Hrun; subst.
    cbn [app Snippets.run_blocks]. now rewrite Hexec, Hflag, Hcheck.
  - cbn [app Snippets.run_blocks] in Hrun |- *.
    destruct (is_executable a && truthy (flags a) "evaluate").
    + destruct (check_configuration opts a); [discriminate|].
      destruct (transpile compile_typescript opts a) as [source retained].
      destruct (run _ _ source sc) as [[printed|stack] sc1]; [|discriminate].
      destruct (run_blocks opts (S position) before errors sc1)
        as [[[rest' errors1] sc2] ending] eqn:Hrest.
      inversion Hrun; subst.
      now rewrite (IH _ _ _ _ _ _ Hrest).
    + destruct (run_blocks opts (S position) before errors sc)
        as [[[rest' errors1] sc2] ending] eqn:Hrest.
      inversion Hrun; subst.
      now rewrite (IH _ _ _ _ _ _ Hrest).
Qed.


End EngineFacts.



(** The suite's two cases, where the TypeScript block is the only one:
    nothing is run. *)
Example suite_typescript_rejections :
  evaluate (list string) journal_run (fun _ code => code) (fun stack => stack)
           (Some no_options) (new [typescript_block]) []
  = (Rejected (PlainError
                 {| error_message :=
                      "tsconfig must be specified with TypeScript snippets" |}),
     mark_evaluated (new [typescript_block]), [])
  /\ fst (evaluate (list string) journal_run (fun _ code => code)
                   (fun stack => stack)
                   (Some {| capture := CaptureReturn;
                            transpileFn := Some (fun code => code);
                            tsconfig := None; preamble := None;
                            pwdPath := "" |})
                   (new [typescript_block]) [])
     = (Rejected (PlainError
                    {| error_message :=
                         "transpileFn cannot be specified with TypeScript snippets" |}),
        mark_evaluated (new [typescript_block])).
Proof. split; vm_compute; reflexivity. Qed.

(** "Snippets.fromMarkdown() should extract the snippets" *)
Example suite_fromMarkdown :
  items (fromMarkdown ExtractSnippets.document_fromMarkdown (Some "evaldown"))
  = testSnippets.
Proof. vm_compute. reflexivity. Qed.

End SnippetsFacts.

(** ** More on the console: escaping, the method surface, sequences of calls *)

Module ConsoleObjectFacts.

Import InspectedConsole JSObject ConsoleObject.

(** *** Escaping *)

(** What [replace] puts in place of one code unit. *)
Lemma unescape_piece (c : ascii) (tail : string) :
  unescape ((if escaped_class c then escape_match c else String c "") ++ tail)
  = String c (unescape tail).
Proof.
  destruct c as [[] [] [] [] [] [] [] []]; reflexivity.
Qed.

Lemma unescape_escape (s : string) : unescape (escape s) = s.
Proof.
  unfold escape. induction s as [|c rest IH]; [reflexivity|].
  cbn [replace_class]. rewrite unescape_piece, IH. reflexivity.
Qed.

(** X1.  Escaping loses nothing: read back as the body of a single-quoted
    JavaScript string literal, the escaped text is the original string, and
    so two different strings are never recorded as the same text. *)
Theorem escape_is_injective (s1 s2 : string) :
  escape s1 = escape s2 ->
  s1 = s2 /\ unescape (escape s1) = s1.
Proof.
  intros Heq. split; [|apply unescape_escape].
  rewrite <- (unescape_escape s1), <- (unescape_escape s2). now rewrite Heq.
Qed.

Lemma escape_is_injective_witness :
  escape (String "a" (String LF "'b")) = String "a" (String "\" "n\'b")
  /\ unescape (String "a" (String "\" "n\'b")) = String "a" (String LF "'b").
Proof.
  split; [reflexivity|].
  exact (proj2 (escape_is_injective
                  (String "a" (String LF "'b")) (String "a" (String LF "'b"))
                  eq_refl)).
Defined.

Lemma all_code_units_app (p : ascii -> bool) (a b : string) :
  all_code_units p (a ++ b) = all_code_units p a && all_code_units p b.
Proof.
  induction a as [|c a IH]; simpl; [reflexivity|].
  rewrite IH. now destruct (p c).
Qed.

Lemma printable_piece (c : ascii) :
  all_code_units printable
    (if escaped_class c then escape_match c else String c "") = true.
Proof.
  destruct c as [[] [] [] [] [] [] [] []]; reflexivity.
Qed.

(** X2.  The escaped text holds no control character, whatever the string:
    in particular no newline, so that a recorded string always occupies
    exactly one line of the serialized output. *)
Theorem escape_has_no_control_character (s : string) :
  all_code_units printable (escape s) = true
  /\ all_code_units (fun c => negb (Ascii.eqb c LF)) (escape s) = true.
Proof.
  assert (Hprintable : all_code_units printable (escape s) = true).
  { unfold escape. induction s as [|c rest IH]; [reflexivity|].
    cbn [replace_class]. now rewrite all_code_units_app, printable_piece, IH. }
  split; [exact Hprintable|].
  revert Hprintable. generalize (escape s) as t.
  induction t as [|c t IH]; [reflexivity|].
  cbn [all_code_units]. intros [Hc Ht]%andb_prop. rewrite (IH Ht).
  destruct (Ascii.eqb_spec c LF) as [->|_]; [discriminate Hc | reflexivity].
Qed.

Lemma string_length_app (a b : string) :
  String.length (a ++ b) = String.length a + String.length b.
Proof. induction a as [|c a IH]; simpl; [reflexivity | now rewrite IH]. Qed.

Lemma length_piece (c : ascii) :
  1 <= String.length (if escaped_class c then escape_match c else String c "")
  /\ String.length (if escaped_class c then escape_match c else String c "") <= 4
  /\ (escaped_class c = true ->
      2 <= String.length (if escaped_class c then escape_match c else String c "")).
Proof.
  destruct c as [[] [] [] [] [] [] [] []]; vm_compute;
    repeat split; try lia; discriminate.
Qed.

Lemma escape_length_bounds (s : string) :
  String.length s <= String.length (escape s)
  /\ String.length (escape s) <= 4 * String.length s.
Proof.
  unfold escape. induction s as [|c rest [IHl IHu]]; [simpl; lia|].
  cbn [replace_class]. rewrite string_length_app. cbn [String.length].
  destruct (length_piece c) as (Hl & Hu & _). lia.
Qed.

Lemma escape_plain (s : string) :
  all_code_units (fun c => negb (escaped_class c)) s = true -> escape s = s.
Proof.
  unfold escape. induction s as [|c rest IH]; [reflexivity|].
  cbn [replace_class all_code_units]. intros [Hc Hrest]%andb_prop.
  destruct (escaped_class c); [discriminate|]. now rewrite IH.
Qed.

Lemma escape_grows (s : string) :
  all_code_units (fun c => negb (escaped_class c)) s = false ->
  String.length s < String.length (escape s).
Proof.
  induction s as [|c rest IH]; [discriminate|].
  cbn [all_code_units]. intros H. unfold escape. cbn [replace_class].
  rewrite string_length_app. cbn [String.length].
  fold (escape rest). destruct (escape_length_bounds rest) as [Hrest _].
  destruct (length_piece c) as (Hl & _ & Hclass).
  destruct (escaped_class c) eqn:Hc.
  - specialize (Hclass eq_refl). lia.
  - cbn in H. specialize (IH H). simpl. lia.
Qed.

(** X3.  Escaping never shortens a string and at most quadruples its
    length; it leaves a string as it is exactly when the string holds no
    backslash, no single quote and no control character. *)
Theorem escape_length_and_fixed_points (s : string) :
  String.length s <= String.length (escape s)
  /\ String.length (escape s) <= 4 * String.length s
  /\ String.eqb (escape s) s
     = all_code_units (fun c => negb (escaped_class c)) s.
Proof.
  destruct (escape_length_bounds s) as [Hl Hu]. repeat split; [exact Hl | exact Hu |].
  destruct (all_code_units (fun c => negb (escaped_class c)) s) eqn:Hplain.
  - rewrite (escape_plain s Hplain). apply String.eqb_refl.
  - apply String.eqb_neq. intros Heq. pose proof (escape_grows s Hplain) as Hlt.
    rewrite Heq in Hlt. lia.
Qed.

(** *** The methods the constructor installs *)

Lemma own_snoc {A : Type} (table : list (string * A)) (k : string) (a : A)
      (key : string) :
  own (table ++ [(k, a)]) key
  = match own table key with
    | Some m => Some m
    | None => if String.eqb k key then Some a else None
    end.
Proof.
  induction table as [|[k' a'] table IH]; simpl.
  - reflexivity.
  - destruct (String.eqb k' key); [reflexivity | exact IH].
Qed.

Lemma install_stubs_lookup (host_console : list (string * JS.value))
      (table : list (string * method)) (key : string) :
  lookup_method (install_stubs host_console table) key
  = match lookup_method table key with
    | Some m => Some m
    | None => if has_function host_console key then Some Stub else None
    end.
Proof.
  revert table. induction host_console as [|[k v] rest IH]; intros table.
  - cbn. now destruct (lookup_method table key).
  - cbn [install_stubs has_function existsb fst snd]. rewrite IH. clear IH.
    destruct (String.eqb (JS.typeof v) "function") eqn:Hfun; cbn [andb].
    + destruct (lookup_method table k) as [m|] eqn:Hk; cbn [negb].
      * destruct (lookup_method table key) as [m'|] eqn:Hkey; [reflexivity|].
        destruct (String.eqb_spec k key) as [->|Hne]; [congruence|].
        reflexivity.
      * unfold lookup_method in *. rewrite own_snoc.
        destruct (own table key) as [m'|] eqn:Hown; [reflexivity|].
        destruct (String.eqb_spec k key) as [->|Hne].
        -- rewrite Hown in Hk. now destruct (is_inherited key).
        -- destruct (is_inherited key); reflexivity.
    + rewrite andb_false_r. reflexivity.
Qed.

Lemma method_surface
      (host_console : list (string * JS.value)) (key : string) :
  lookup_method (constructor host_console) key
  = match capturing_stream key with
    | Some out => Some (Capture out)
    | None =>
        if is_inherited key then Some FromPrototype
        else if has_function host_console key then Some Stub
        else None
    end.
Proof.
  unfold constructor. rewrite install_stubs_lookup.
  unfold lookup_method, bound_methods, capturing_stream. cbn [own].
  destruct (String.eqb_spec "log" key) as [<-|Hlog]; [reflexivity|].
  destruct (String.eqb_spec "info" key) as [<-|Hinfo]; [reflexivity|].
  destruct (String.eqb_spec "warn" key) as [<-|Hwarn]; [reflexivity|].
  destruct (String.eqb_spec "error" key) as [<-|Herror]; [reflexivity|].
  destruct (String.eqb_spec key "log") as [->|_]; [congruence|].
  destruct (String.eqb_spec key "info") as [->|_]; [congruence|].
  destruct (String.eqb_spec key "warn") as [->|_]; [congruence|].
  destruct (String.eqb_spec key "error") as [->|_]; [congruence|].
  cbn [orb]. now destruct (is_inherited key).
Qed.

(** X4.  The method surface of an instance, whatever the global console
    holds: [log] and [info] capture to stdout, [warn] and [error] to stderr
    (a function of the same name on the global console never replaces them);
    a name of [Object.prototype] keeps the inherited function; every other
    function of the global console is stubbed with [noopMethod]; nothing
    else is defined. *)
Theorem constructor_method_surface
        (host_console : list (string * JS.value)) (key : string) :
  lookup_method (constructor host_console) key
  = match capturing_stream key with
    | Some out => Some (Capture out)
    | None =>
        if is_inherited key then Some FromPrototype
        else if has_function host_console key then Some Stub
        else None
    end.
Proof. exact (method_surface host_console key). Qed.

(** *** What calls record *)

Lemma fold_line_length (out : stream) (vs : list JS.value) (c : console) :
  length (output (fold_left (fun c obj => line out obj c) vs c))
  = length (output c) + length vs.
Proof.
  revert c. induction vs as [|v vs IH]; intros c; cbn [fold_left length].
  - lia.
  - rewrite IH. unfold line. cbn [output]. rewrite length_app. cbn [length]. lia.
Qed.

Lemma method_length (out : stream) (args : list JS.value) (con : console) :
  length (output (makeBoundConsoleMethod out args con))
  = length (output con) + lines_recorded args.
Proof.
  unfold makeBoundConsoleMethod, lines_recorded.
  destruct args as [|first rest]; cbn [hd tl].
  - rewrite fold_line_length. reflexivity.
  - destruct first; try (rewrite fold_line_length; reflexivity).
    unfold line. cbn [output]. rewrite length_app. reflexivity.
Qed.

Lemma lines_recorded_positive (args : list JS.value) : 1 <= lines_recorded args.
Proof.
  unfold lines_recorded. destruct args as [|[] rest]; cbn [length]; lia.
Qed.

Lemma call_length (host_console : list (string * JS.value)) (key : string)
      (args : list JS.value) (con con' : console) :
  call (constructor host_console) key args con = Some con' ->
  length (output con')
  = length (output con)
    + match capturing_stream key with
      | Some _ => lines_recorded args
      | None => 0
      end.
Proof.
  unfold call. rewrite method_surface.
  destruct (capturing_stream key) as [out|].
  - intros [= <-]. apply method_length.
  - destruct (is_inherited key); [discriminate|].
    destruct (has_function host_console key); [|discriminate].
    intros [= <-]. unfold noopMethod. lia.
Qed.

(** X5.  After any script of calls on an instance, the number of recorded
    lines has grown by what the capturing calls of the script record: one
    line for a call whose first argument is a string or that has no
    argument, one line per argument otherwise; the stubbed methods record
    nothing.  So the capture is empty afterwards exactly when it was empty
    before and the script called none of [log], [info], [warn], [error]. *)
Theorem script_records_capturing_calls
        (host_console : list (string * JS.value))
        (script : list (string * list JS.value)) (con con' : console) :
  calls (constructor host_console) script con = Some con' ->
  length (output con') = length (output con) + script_lines script
  /\ isEmpty con'
     = isEmpty con
       && forallb (fun c => negb (is_capturing (fst c))) script.
Proof.
  revert con. induction script as [|[key args] rest IH]; intros con.
  - cbn. intros [= <-]. split; [lia|]. now rewrite andb_true_r.
  - cbn [calls script_lines forallb fst].
    destruct (call (constructor host_console) key args con) as [mid|] eqn:Hcall;
      [|discriminate].
    intros Hrest. destruct (IH mid Hrest) as [Hlen Hempty].
    pose proof (call_length host_console key args con mid Hcall) as Hmid.
    pose proof (lines_recorded_positive args) as Hpos.
    assert (Hcap : is_capturing key
                   = match capturing_stream key with
                     | Some _ => true | None => false end).
    { unfold is_capturing, capturing_stream.
      destruct (String.eqb key "log"), (String.eqb key "info"),
               (String.eqb key "warn"), (String.eqb key "error"); reflexivity. }
    split.
    + rewrite Hlen, Hmid. destruct (capturing_stream key); lia.
    + rewrite Hempty, Hcap. unfold isEmpty.
      destruct (capturing_stream key).
      * destruct (output mid) as [|l ls]; [cbn [length] in Hmid; lia|].
        cbn. now rewrite andb_false_r.
      * destruct (output mid) as [|l ls], (output con) as [|l' ls'];
          cbn [length] in Hmid; try lia; reflexivity.
Qed.

Lemma script_records_capturing_calls_witness :
  exists con' : console,
    calls (constructor [("log", JS.Fun "log"); ("trace", JS.Fun "trace");
                        ("memory", JS.Obj [])])
          [("trace", [JS.Str "here"]); ("log", [JS.Num 1; JS.Str "a"]);
           ("warn", [JS.Str "b"; JS.Num 2])]
          InspectedConsole.new
    = Some con'
    /\ length (output con') = 3.
Proof.
  eexists. split; [vm_compute; reflexivity|].
  refine (eq_trans
    (proj1 (script_records_capturing_calls
              [("log", JS.Fun "log"); ("trace", JS.Fun "trace");
               ("memory", JS.Obj [])]
              [("trace", [JS.Str "here"]); ("log", [JS.Num 1; JS.Str "a"]);
               ("warn", [JS.Str "b"; JS.Num 2])]
              InspectedConsole.new _ _)) _).
  - vm_compute. reflexivity.
  - reflexivity.
Defined.

(** *** Serialization after further calls *)

Lemma concat_snoc (sep : string) (ls : list string) (x : string) :
  String.concat sep (ls ++ [x])
  = match ls with
    | [] => x
    | _ :: _ => (String.concat sep ls ++ sep ++ x)%string
    end.
Proof.
  induction ls as [|l ls IH]; [reflexivity|].
  destruct ls as [|l' ls'].
  - reflexivity.
  - change (String.concat sep ((l :: l' :: ls') ++ [x]))
      with (l ++ sep ++ String.concat sep ((l' :: ls') ++ [x]))%string.
    rewrite IH.
    change (String.concat sep (l :: l' :: ls'))
      with (l ++ sep ++ String.concat sep (l' :: ls'))%string.
    rewrite !InspectedConsoleFacts.append_assoc. reflexivity.
Qed.

Lemma fold_line_output (out : stream) (vs : list JS.value) (c : console) :
  output (fold_left (fun c obj => line out obj c) vs c)
  = output c ++ map (recorded_line out) vs.
Proof.
  revert c. induction vs as [|v vs IH]; intros c; cbn [fold_left map].
  - now rewrite app_nil_r.
  - rewrite IH. unfold line. cbn [output]. now rewrite <- app_assoc.
Qed.

Section TextFacts.

Variable inspectText : JS.value -> nat -> string.

(** X6.  Recording one more value extends the serialized text and never
    rewrites it: on an empty capture the text becomes the text of the new
    line, otherwise it is the previous text, one newline, and the text of
    the new line. *)
Theorem toString_after_line (out : stream) (v : JS.value) (c : console) :
  toString inspectText (line out v c)
  = if isEmpty c then pen_toString inspectText (recorded_line out v)
    else (toString inspectText c
          ++ String LF (pen_toString inspectText (recorded_line out v)))%string.
Proof.
  rewrite !InspectedConsoleFacts.toString_joined. unfold line, isEmpty.
  cbn [output]. rewrite map_app. cbn [map]. rewrite concat_snoc.
  destruct (output c); reflexivity.
Qed.

Lemma recorded_line_text (v : JS.value) :
  pen_toString inspectText (recorded_line stderr v)
  = pen_toString inspectText (recorded_line stdout v).
Proof. destruct v; reflexivity. Qed.

(** X7.  In the text serialization the stream does not show: a call of
    [warn] or [error] leaves the same text as the same call of [log] or
    [info] would. *)
Theorem toString_ignores_the_stream (args : list JS.value) (c : console) :
  toString inspectText (warn args c) = toString inspectText (log args c)
  /\ toString inspectText (error args c) = toString inspectText (info args c).
Proof.
  assert (H : map (pen_toString inspectText)
                  (output (makeBoundConsoleMethod stderr args c))
              = map (pen_toString inspectText)
                    (output (makeBoundConsoleMethod stdout args c))).
  { unfold makeBoundConsoleMethod.
    destruct (hd JS.Undefined args);
      try (rewrite !fold_line_output, !map_app, !map_map; f_equal;
           apply map_ext; intros v; apply recorded_line_text).
    unfold line. cbn [output]. rewrite !map_app. reflexivity. }
  unfold warn, error, log, info.
  rewrite !InspectedConsoleFacts.toString_joined, H. split; reflexivity.
Qed.

End TextFacts.

End ConsoleObjectFacts.

(** ** The constructor of Evaldown *)

Module EvaldownConstructorFacts.

Import JSObject EvaldownConstructor.

Lemma formats_names (name : string) (f : Evaldown.format) :
  Evaldown.formats name = Some f ->
  (name = "html" /\ Evaldown.defaultExtension f = ".html")
  \/ (name = "inlined" /\ Evaldown.defaultExtension f = ".md")
  \/ (name = "markdown" /\ Evaldown.defaultExtension f = ".md").
Proof.
  unfold Evaldown.formats.
  destruct (String.eqb_spec name "html") as [->|_];
    [intros [= <-]; left; split; reflexivity|].
  destruct (String.eqb_spec name "inlined") as [->|_];
    [intros [= <-]; right; left; split; reflexivity|].
  destruct (String.eqb_spec name "markdown") as [->|_];
    [intros [= <-]; right; right; split; reflexivity|].
  discriminate.
Qed.

Lemma inherited_is_no_format (name : string) :
  is_inherited name = true -> Evaldown.formats name = None.
Proof.
  intros Hin. destruct (Evaldown.formats name) as [f|] eqn:Hf; [|reflexivity].
  destruct (formats_names name f Hf) as [[-> _]|[[-> _]|[-> _]]];
    discriminate Hin.
Qed.

Lemma format_missing (name : string) :
  is_missing (lookup_format name) = negb (accepted_format name).
Proof.
  unfold lookup_format, accepted_format, Evaldown.formats.
  destruct (String.eqb name "html"); [reflexivity|].
  destruct (String.eqb name "inlined"); [reflexivity|].
  destruct (String.eqb name "markdown"); [reflexivity|].
  cbn [orb]. now destruct (is_inherited name).
Qed.

Lemma capture_missing (name : string) :
  is_missing (lookup_capture name) = negb (accepted_capture name).
Proof.
  unfold lookup_capture, accepted_capture.
  destruct (captures name); [reflexivity|].
  cbn [orb]. now destruct (is_inherited name).
Qed.

(** X8.  The constructor throws in two cases only, and in this order: the
    format name (the [outputFormat] option when it is a string, [html]
    otherwise) is neither [html], [inlined], [markdown] nor a property name
    of [Object.prototype]; or the capture name ([outputCapture] when it is a
    string, [return] otherwise) is neither [console], [nowrap], [return]
    nor such a property name.  The message quotes the offending name.  In
    every other case an instance is built with these two names; an option
    of another type is never an error. *)
Theorem constructor_rejects_exactly (options : JS.value) :
  let name := string_or (read (properties options) "outputFormat") "html" in
  let cname := string_or (read (properties options) "outputCapture") "return" in
  (accepted_format name = false ->
   constructor options = inl (unsupported_format name))
  /\ (accepted_format name = true -> accepted_capture cname = false ->
      constructor options = inl (unsupported_capture cname))
  /\ (accepted_format name = true -> accepted_capture cname = true ->
      exists i : instance,
        constructor options = inr i
        /\ formatName i = name /\ capture i = cname).
Proof.
  intros name cname. unfold constructor. fold name. fold cname.
  rewrite format_missing, capture_missing.
  split; [|split].
  - intros ->. reflexivity.
  - intros -> ->. reflexivity.
  - intros -> ->. cbn [negb]. eexists. split; [reflexivity|]. split; reflexivity.
Qed.

Lemma constructor_rejects_exactly_witness :
  accepted_format "pdf" = false
  /\ constructor (JS.Obj [("outputFormat", JS.Str "pdf")])
     = inl ("Evaldown: Unsupported output format " ++ double_quote ++ "pdf"
              ++ double_quote)%string.
Proof.
  split; [reflexivity|].
  exact (proj1 (constructor_rejects_exactly
                  (JS.Obj [("outputFormat", JS.Str "pdf")])) eq_refl).
Defined.

(** X9.  A property name of [Object.prototype] passes as an output format:
    the lookup in [formats] finds the inherited property, nothing is
    thrown, and the instance has no format entry; its target extension is
    then the [targetExtension] option when that is a string and [undefined]
    otherwise. *)
Theorem prototype_name_passes_as_format (options : JS.value) (name : string) :
  read (properties options) "outputFormat" = JS.Str name ->
  is_inherited name = true ->
  accepted_capture
    (string_or (read (properties options) "outputCapture") "return") = true ->
  exists i : instance,
    constructor options = inr i
    /\ formatName i = name
    /\ format i = Inherited
    /\ targetExtension i
       = match read (properties options) "targetExtension" with
         | JS.Str s => JS.Str s
         | _ => JS.Undefined
         end.
Proof.
  intros Hformat Hinherited Hcapture. unfold constructor.
  rewrite Hformat. cbn [string_or].
  rewrite format_missing, capture_missing, Hcapture.
  unfold accepted_format. rewrite Hinherited, !orb_true_r. cbn [negb].
  eexists. split; [reflexivity|]. cbn [formatName format targetExtension].
  unfold lookup_format. rewrite (inherited_is_no_format name Hinherited), Hinherited.
  split; [reflexivity|]. split; [reflexivity|].
  now destruct (read (properties options) "targetExtension").
Qed.

Lemma prototype_name_passes_as_format_witness :
  exists i : instance,
    constructor (JS.Obj [("outputFormat", JS.Str "constructor")]) = inr i
    /\ formatName i = "constructor"
    /\ format i = Inherited
    /\ targetExtension i = JS.Undefined.
Proof.
  exact (prototype_name_passes_as_format
           (JS.Obj [("outputFormat", JS.Str "constructor")]) "constructor"
           eq_refl eq_refl eq_refl).
Defined.

(** X10.  On every instance that is built: the source extension is a
    string, the [sourceExtension] option or [.md]; when the format is an
    entry of [formats], the target extension is a string too, the
    [targetExtension] option or the entry's default, which is [.html] for
    [html] and [.md] for [inlined] and [markdown]; the preamble is a string
    or [undefined]; the wrapper is a function; the file globals are a
    non-null object. *)
Theorem constructed_fields_are_typed (options : JS.value) (i : instance) :
  constructor options = inr i ->
  sourceExtension i
  = JS.Str (string_or (read (properties options) "sourceExtension") ".md")
  /\ (forall f : Evaldown.format,
         format i = Own f ->
         targetExtension i
         = JS.Str (string_or (read (properties options) "targetExtension")
                             (Evaldown.defaultExtension f))
         /\ Evaldown.defaultExtension f
            = (if String.eqb (formatName i) "html" then ".html" else ".md"))
  /\ (preamble i = JS.Undefined \/ exists s, preamble i = JS.Str s)
  /\ JS.typeof (wrapper i) = "function"
  /\ JS.typeof (fileGlobals i) = "object"
  /\ JS.truthy (fileGlobals i) = true.
Proof.
  unfold constructor.
  destruct (is_missing (lookup_format _)); [discriminate|].
  destruct (is_missing (lookup_capture _)); [discriminate|].
  intros [= <-].
  cbn [sourceExtension format targetExtension preamble wrapper fileGlobals
       formatName].
  split; [|split; [|split; [|split; [|split]]]].
  - now destruct (read (properties options) "sourceExtension").
  - intros f Hf. split.
    + rewrite Hf. cbn [format_defaultExtension].
      now destruct (read (properties options) "targetExtension").
    + unfold lookup_format in Hf.
      destruct (Evaldown.formats _) as [f'|] eqn:Hformats.
      * injection Hf as ->.
        destruct (formats_names _ f Hformats) as [[-> ->]|[[-> ->]|[-> ->]]];
          reflexivity.
      * destruct (is_inherited _); discriminate.
  - destruct (read (properties options) "filePreamble"); eauto.
  - destruct (String.eqb_spec
                (JS.typeof (read (properties options) "wrapOutput")) "function")
      as [H|_]; [exact H | reflexivity].
  - destruct (String.eqb_spec
                (JS.typeof (read (properties options) "fileGlobals")) "object")
      as [H|_]; cbn [andb].
    + destruct (JS.truthy (read (properties options) "fileGlobals"));
        [exact H | reflexivity].
    + reflexivity.
  - destruct (String.eqb (JS.typeof (read (properties options) "fileGlobals"))
                         "object"); cbn [andb]; [|reflexivity].
    destruct (JS.truthy (read (properties options) "fileGlobals")) eqn:Ht;
      [exact Ht | reflexivity].
Qed.

Lemma constructed_fields_are_typed_witness :
  exists i : instance,
    constructor JS.Undefined = inr i
    /\ sourceExtension i = JS.Str ".md"
    /\ targetExtension i = JS.Str ".html".
Proof.
  eexists. split; [reflexivity|].
  pose proof (constructed_fields_are_typed JS.Undefined _ eq_refl)
    as (Hsource & Htarget & _).
  split; [exact Hsource|].
  exact (proj1 (Htarget _ eq_refl)).
Defined.

End EvaldownConstructorFacts.

(** ** Processing one file *)

Module EvaldownProcessingFacts.

Import Evaldown EvaldownHosts.

#[local] Arguments makeOutputForContent {world exn maker Stats} host ev _ _ _.
#[local] Arguments prepareFile {world exn maker Stats} host ev _ _.
#[local] Arguments writeFile {world exn maker Stats} host ev p _.
#[local] Arguments updateFile {world exn maker Stats} host ev p _.
#[local] Arguments join_path {world exn maker Stats} host _ _ _.
#[local] Arguments fs_readFile {world exn maker Stats} c _ _.
#[local] Arguments maker_evaluate {world exn maker Stats} c _ _ _ _ _.
#[local] Arguments Markdown_new {world exn maker Stats} c _ _.
#[local] Arguments path_join {world exn maker Stats} c _ _.
#[local] Arguments path_dirname {world exn maker Stats} c _.
#[local] Arguments invalid_path {world exn maker Stats} c _.
#[local] Arguments SourceFileError {world exn maker Stats} c _.
#[local] Arguments TargetFileError {world exn maker Stats} c _.
#[local] Arguments InplaceFileError {world exn maker Stats} c _.
#[local] Arguments errorToOutput {world exn maker Stats} c _.
#[local] Arguments addSuccess {world exn maker Stats} c _ _.
#[local] Arguments addError {world exn maker Stats} c _ _ _.

Section ProcessingFacts.

Context {world exn maker Stats : Type}.
Variable host : collaborators world exn maker Stats.
Variable ev : evaldown.

Lemma join_path_string (dir : JS.value) (rest : string) (w : world) :
  is_string dir = true ->
  exists d, dir = JS.Str d
            /\ join_path host dir rest w = (Fulfilled (path_join host d rest), w).
Proof. destruct dir; try discriminate. intros _. eauto. Qed.

Lemma join_path_other (dir : JS.value) (rest : string) (w : world) :
  is_string dir = false ->
  join_path host dir rest w = (RejectedWith (invalid_path host dir), w).
Proof. destruct dir; try reflexivity. discriminate. Qed.

Lemma makeOutput_sourceOutput (content pwd : string) (w w' : world)
      (o : output_pair) :
  makeOutputForContent host ev content pwd w = (Fulfilled o, w') ->
  has_sourceOutput o = (inplace ev || update ev)
  /\ (String.eqb (formatName ev) "markdown" = true ->
      inplace ev || update ev = true ->
      sourceOutput o = Some (targetOutput o)).
Proof.
  unfold makeOutputForContent, bind, ret, has_sourceOutput.
  destruct (maker_evaluate host _ _ _ _ w) as [[[]|e] w1];
    [|discriminate].
  destruct (generateOutput _ _ _ _ host (formatName ev) _ w1) as [[t|e] w2];
    [|discriminate].
  destruct (inplace ev || update ev); cbn [negb].
  - destruct (String.eqb (formatName ev) "markdown").
    + intros [= <- <-]. split; [reflexivity|]. reflexivity.
    + destruct (generateOutput _ _ _ _ host "markdown" _ w2) as [[t'|e] w3];
        [|discriminate].
      intros [= <- <-]. split; [reflexivity|]. discriminate.
  - intros [= <- <-]. split; [reflexivity|]. discriminate.
Qed.

(** How [prepareFile] can end. *)
Lemma prepareFile_cases (file : string) (w : world) :
  (is_string (sourcePath ev) = false
   /\ prepareFile host ev file w
      = (RejectedWith (invalid_path host (sourcePath ev)), w))
  \/ (exists dir e0 w0,
         sourcePath ev = JS.Str dir
         /\ fs_readFile host (path_join host dir file) w = (RejectedWith e0, w0)
         /\ prepareFile host ev file w
            = (RejectedWith (SourceFileError host e0), w0))
  \/ (exists content pwd w0 e w1,
         makeOutputForContent host ev content pwd w0 = (RejectedWith e, w1)
         /\ prepareFile host ev file w = (RejectedWith e, w1))
  \/ (exists content pwd w0 p w1,
         makeOutputForContent host ev content pwd w0
         = (Fulfilled (outputs p), w1)
         /\ prepareFile host ev file w = (Fulfilled p, w1)).
Proof.
  unfold prepareFile, bind, try_catch, throw, ret.
  destruct (sourcePath ev) as [| |b|z|dir|r|fields|name] eqn:Hdir;
    try (left; split; reflexivity).
  right. cbn [join_path Evaldown.join_path]. unfold ret.
  destruct (fs_readFile host (path_join host dir file) w)
    as [[content|e0] w0] eqn:Hread.
  - right.
    destruct (makeOutputForContent host ev content _ w0) as [[o|e] w1] eqn:Ho.
    + right. do 5 eexists. split. 2: reflexivity. exact Ho.
    + left. do 5 eexists. split; [exact Ho | reflexivity].
  - left. do 3 eexists. split; [reflexivity|]. split; [exact Hread | reflexivity].
Qed.

Lemma prepareFile_outputs (file : string) (w w' : world) (p : prepared) :
  prepareFile host ev file w = (Fulfilled p, w') ->
  exists content pwd w0,
    makeOutputForContent host ev content pwd w0 = (Fulfilled (outputs p), w').
Proof.
  intros Hp.
  destruct (prepareFile_cases file w)
    as [[_ H]|[(dir & e0 & w0 & _ & _ & H)
              |[(content & pwd & w0 & e & w1 & _ & H)
               |(content & pwd & w0 & p' & w1 & Ho & H)]]];
    rewrite H in Hp; try discriminate.
  injection Hp as -> ->. eauto.
Qed.

(** X11.  Whenever [makeOutputForContent] is fulfilled, it carries a source
    output exactly when the instance is in inplace or update mode; it is
    [null] otherwise.  With the markdown format the source output is the
    target output itself, not a second rendering. *)
Theorem makeOutputForContent_sourceOutput
        (content pwd : string) (w w' : world) (o : output_pair) :
  makeOutputForContent host ev content pwd w = (Fulfilled o, w') ->
  has_sourceOutput o = (inplace ev || update ev)
  /\ (String.eqb (formatName ev) "markdown" = true ->
      inplace ev || update ev = true ->
      sourceOutput o = Some (targetOutput o)).
Proof. exact (makeOutput_sourceOutput content pwd w w' o). Qed.

(** X12.  [updateFile] is never reached with a [null] source output: the
    outcome of [processFile] does not depend on what writing an [undefined]
    payload would throw. *)
Theorem processFile_never_writes_undefined
        (file : string) (w : world) (e : exn) :
  processFile (with_undefined_payload host e) ev file w
  = processFile host ev file w.
Proof.
  unfold processFile, bind.
  change (prepareFile (with_undefined_payload host e) ev file w)
    with (prepareFile host ev file w).
  destruct (prepareFile host ev file w) as [[p|e0] w1] eqn:Hp; [|reflexivity].
  change (writeFile (with_undefined_payload host e) ev p)
    with (writeFile host ev p).
  destruct ((if negb (inplace ev) && targetPath_truthy ev
             then writeFile host ev p else ret world exn tt) w1)
    as [[[]|e1] w2]; [|reflexivity].
  destruct (inplace ev || update ev) eqn:Hmode; [|reflexivity].
  destruct (prepareFile_outputs file w w1 p Hp) as (content & pwd & w0 & Ho).
  destruct (makeOutput_sourceOutput content pwd w0 w1 (outputs p) Ho)
    as [Hsome _].
  rewrite Hmode in Hsome. unfold has_sourceOutput in Hsome.
  unfold updateFile.
  destruct (sourceOutput (outputs p)); [reflexivity | discriminate].
Qed.

(** X13.  In inplace mode, and when no target path is configured, nothing
    of [writeFile] takes part in processing a file: the outcome is the same
    whatever creating directories, wrapping the output and wrapping a
    target error would do. *)
Theorem processFile_skips_the_target
        (file : string) (w : world)
        (ensureDir : string -> promise world exn unit)
        (wrap : string -> string -> string -> promise world exn string)
        (targetError : exn -> exn) :
  negb (inplace ev) && targetPath_truthy ev = false ->
  processFile (with_target_side host ensureDir wrap targetError) ev file w
  = processFile host ev file w.
Proof.
  intros Hskip. unfold processFile, bind. rewrite Hskip. reflexivity.
Qed.

(** X14.  With no target path and neither inplace nor update mode,
    processing a file writes nothing: the outcome is the same whatever
    writing a file would do. *)
Theorem processFile_dry_run
        (file : string) (w : world)
        (write : string -> string -> promise world exn unit) :
  targetPath_truthy ev = false ->
  inplace ev = false ->
  update ev = false ->
  processFile (with_fs_writeFile host write) ev file w
  = processFile host ev file w.
Proof.
  intros Htarget Hinplace Hupdate. unfold processFile, bind.
  rewrite Htarget, Hinplace, Hupdate. reflexivity.
Qed.

(** How [writeFile] can fail. *)
Lemma writeFile_rejection (p : prepared) (w w' : world) (e : exn) :
  writeFile host ev p w = (RejectedWith e, w') ->
  (is_string (targetPath ev) = false
   /\ e = invalid_path host (targetPath ev) /\ w' = w)
  \/ (is_string (targetPath ev) = true
      /\ exists e0, e = TargetFileError host e0).
Proof.
  unfold writeFile, bind.
  destruct (is_string (targetPath ev)) eqn:Hstring.
  - destruct (join_path_string (targetPath ev)
                (path_join host (sourceDirName p)
                   (sourceBaseName p ++ targetExtension ev)) w Hstring)
      as (t & _ & ->).
    unfold try_catch, bind, throw. intros H. right. split; [reflexivity|].
    revert H.
    destruct (fsExtra_ensureDir _ _ _ _ host _ w) as [[[]|e1] w1].
    + destruct (wrapper _ _ _ _ host _ _ _ w1) as [[wrapped|e2] w2].
      * destruct (fs_writeFile _ _ _ _ host _ wrapped w2) as [[[]|e3] w3];
          [discriminate|].
        intros [= <- <-]. eauto.
      * intros [= <- <-]. eauto.
    + intros [= <- <-]. eauto.
  - rewrite (join_path_other _ _ w Hstring). intros [= <- <-].
    left. repeat split.
Qed.

Lemma updateFile_rejection (p : prepared) (w w' : world) (e : exn) :
  updateFile host ev p w = (RejectedWith e, w') ->
  exists e0, e = InplaceFileError host e0.
Proof.
  unfold updateFile, try_catch, throw.
  destruct (sourceOutput (outputs p)) as [text|].
  - destruct (fs_writeFile _ _ _ _ host _ text w) as [[[]|e1] w1];
      [discriminate|].
    intros [= <- <-]. eauto.
  - intros [= <- <-]. eauto.
Qed.

(** X15.  When the target path is a string, whatever goes wrong inside
    [writeFile] (creating the directory, the output wrapper, the write)
    reaches the caller as a TargetFileError around the cause.  When it is
    not a string, [writeFile] fails before its [try] block with the bare
    TypeError of [path.join], and touches nothing.  Whatever goes wrong
    inside [updateFile] reaches the caller as an InplaceFileError around
    the cause. *)
Theorem write_errors_are_wrapped (p : prepared) (w w' : world) (e : exn) :
  (is_string (targetPath ev) = true ->
   writeFile host ev p w = (RejectedWith e, w') ->
   exists e0, e = TargetFileError host e0)
  /\ (is_string (targetPath ev) = false ->
      writeFile host ev p w
      = (RejectedWith (invalid_path host (targetPath ev)), w))
  /\ (updateFile host ev p w = (RejectedWith e, w') ->
      exists e0, e = InplaceFileError host e0).
Proof.
  split; [|split].
  - intros Hstring Hw.
    destruct (writeFile_rejection p w w' e Hw) as [[Hno _]|[_ H]];
      [congruence | exact H].
  - intros Hother. unfold writeFile, bind.
    now rewrite (join_path_other _ _ w Hother).
  - apply updateFile_rejection.
Qed.

(** X16.  Every failure of [processFile] is one of these: the bare
    TypeError of [path.join] for a source path, or a target path, that is
    not a string; a SourceFileError around what reading the file threw; a
    TargetFileError; an InplaceFileError; or, unwrapped, what evaluating
    or rendering the document rejected with. *)
Theorem processFile_failures (file : string) (w w' : world) (e : exn) :
  processFile host ev file w = (RejectedWith e, w') ->
  (is_string (sourcePath ev) = false
   /\ e = invalid_path host (sourcePath ev))
  \/ (exists dir e0 w0,
         sourcePath ev = JS.Str dir
         /\ fs_readFile host (path_join host dir file) w = (RejectedWith e0, w0)
         /\ e = SourceFileError host e0)
  \/ (is_string (targetPath ev) = false
      /\ e = invalid_path host (targetPath ev))
  \/ (exists e0, e = TargetFileError host e0)
  \/ (exists e0, e = InplaceFileError host e0)
  \/ (exists content pwd w0 w1,
         makeOutputForContent host ev content pwd w0 = (RejectedWith e, w1)).
Proof.
  unfold processFile, bind.
  destruct (prepareFile_cases file w)
    as [[Hno H]|[(dir & e0 & w0 & Hdir & Hread & H)
                |[(content & pwd & w0 & e1 & w1 & Ho & H)
                 |(content & pwd & w0 & p & w1 & Ho & H)]]];
    rewrite H.
  - intros [= <- <-]. left. split; [exact Hno | reflexivity].
  - intros [= <- <-]. right. left. eauto 6.
  - intros [= <- <-]. do 5 right. eauto.
  - destruct (negb (inplace ev) && targetPath_truthy ev).
    + change (writeFile host ev p w1)
        with (writeFile host ev p w1).
      destruct (writeFile host ev p w1) as [[[]|e1] w2] eqn:Hw.
      * destruct (inplace ev || update ev); [|discriminate].
        intros Hu. do 4 right. left.
        exact (updateFile_rejection p w2 w' e Hu).
      * intros [= <- <-].
        destruct (writeFile_rejection p w1 w2 e1 Hw) as [(Hno & He & _)|[_ Hwrapped]].
        -- right. right. left. split; assumption.
        -- do 3 right. left. exact Hwrapped.
    + unfold ret. destruct (inplace ev || update ev); [|discriminate].
      intros Hu. do 4 right. left.
      exact (updateFile_rejection p w1 w' e Hu).
Qed.

(** X17.  When the target is to be written and [writeFile] fails, the
    source file is not updated: [processFile] rejects with what [writeFile]
    rejected with, in the world it left, without running [updateFile].
    That is a TargetFileError when the target path is a string, and the
    bare TypeError of [path.join], with nothing touched, when it is not. *)
Theorem failed_target_write_keeps_the_source
        (file : string) (w w1 w2 : world) (p : prepared) (e : exn) :
  negb (inplace ev) && targetPath_truthy ev = true ->
  prepareFile host ev file w = (Fulfilled p, w1) ->
  writeFile host ev p w1 = (RejectedWith e, w2) ->
  processFile host ev file w = (RejectedWith e, w2)
  /\ (is_string (targetPath ev) = true -> exists e0, e = TargetFileError host e0)
  /\ (is_string (targetPath ev) = false ->
      e = invalid_path host (targetPath ev) /\ w2 = w1).
Proof.
  intros Hmode Hp Hw. split.
  - unfold processFile, bind.
    rewrite Hp, Hmode.
    now rewrite Hw.
  - destruct (writeFile_rejection p w1 w2 e Hw) as [(Hno & He & Hworld)|[Hyes H]].
    + split; [congruence|]. intros _. split; assumption.
    + split; [intros _; exact H | congruence].
Qed.

(** X18.  The first failure ends the processing of a file.  When the
    source path is not a string, [processFile] rejects with the TypeError
    of [path.join] and nothing is read.  When reading fails, [processFile]
    rejects with the SourceFileError around the cause in the world the
    read left: nothing is evaluated.  When the read succeeds and
    evaluating the document fails, it rejects with that very error in the
    world the evaluation left: nothing is rendered or written. *)
Theorem processFile_stops_at_first_failure
        (file dir : string) (w w1 w2 : world) (e : exn) (content : string) :
  (is_string (sourcePath ev) = false ->
   processFile host ev file w
   = (RejectedWith (invalid_path host (sourcePath ev)), w))
  /\ (sourcePath ev = JS.Str dir ->
      fs_readFile host (path_join host dir file) w = (RejectedWith e, w1) ->
      processFile host ev file w = (RejectedWith (SourceFileError host e), w1))
  /\ (sourcePath ev = JS.Str dir ->
      fs_readFile host (path_join host dir file) w = (Fulfilled content, w1) ->
      maker_evaluate host (Markdown_new host content ev)
                     (path_join host dir (path_dirname host file))
                     (capture ev) (fileGlobals ev) w1
      = (RejectedWith e, w2) ->
      processFile host ev file w = (RejectedWith e, w2)).
Proof.
  split; [|split].
  - intros Hno. unfold processFile, prepareFile, bind.
    now rewrite (join_path_other _ _ w Hno).
  - intros Hdir Hr. unfold processFile, prepareFile, bind, try_catch, throw.
    rewrite Hdir. cbn [Evaldown.join_path]. unfold ret. now rewrite Hr.
  - intros Hdir Hr He.
    unfold processFile, prepareFile, makeOutputForContent,
      bind, try_catch, throw.
    rewrite Hdir. cbn [Evaldown.join_path]. unfold ret.
    rewrite Hr. now rewrite He.
Qed.


End ProcessingFacts.

(** In update mode with the markdown format, the source output is the
    target output. *)
Lemma makeOutputForContent_sourceOutput_witness :
  makeOutputForContent example_host updating_evaldown "# title" "docs/." []
  = (Fulfilled {| targetOutput := "# title"; sourceOutput := Some "# title" |},
     [])
  /\ has_sourceOutput
       {| targetOutput := "# title"; sourceOutput := Some "# title" |}
     = true.
Proof.
  split; [reflexivity|].
  exact (proj1 (makeOutputForContent_sourceOutput
                  example_host updating_evaldown "# title" "docs/." [] [] _
                  eq_refl)).
Defined.

(** Without a target path, a host whose directory creation fails processes
    the file like the example host. *)
Lemma processFile_skips_the_target_witness :
  negb (inplace checking_evaldown) && targetPath_truthy checking_evaldown
  = false
  /\ processFile
       (with_target_side example_host
          (fun _ w => (RejectedWith "EROFS", w))
          (fun out _ _ w => (Fulfilled out, w))
          (fun e => e))
       checking_evaldown "a.md" []
     = (Fulfilled tt, []).
Proof.
  split; [reflexivity|].
  exact (eq_trans
           (processFile_skips_the_target example_host checking_evaldown
              "a.md" []
              (fun _ w => (RejectedWith "EROFS", w))
              (fun out _ _ w => (Fulfilled out, w))
              (fun e => e) eq_refl)
           eq_refl).
Defined.

(** Without a target path and outside inplace and update mode, the
    read-only host processes the file like the example host. *)
Lemma processFile_dry_run_witness :
  targetPath_truthy checking_evaldown = false
  /\ processFile read_only_host checking_evaldown "a.md" []
     = (Fulfilled tt, []).
Proof.
  split; [reflexivity|].
  exact (eq_trans
           (processFile_dry_run example_host checking_evaldown "a.md" []
              (fun _ _ w => (RejectedWith "EACCES", w))
              eq_refl eq_refl eq_refl)
           eq_refl).
Defined.

(** On the read-only host both writes fail, each with its own wrapper; with
    a number as target path [writeFile] fails with the TypeError. *)
Lemma write_errors_are_wrapped_witness :
  writeFile read_only_host example_evaldown example_prepared []
  = (RejectedWith "TargetFileError: EACCES", [])
  /\ (exists e0, "TargetFileError: EACCES" = TargetFileError read_only_host e0)
  /\ writeFile example_host numbered_target_evaldown example_prepared []
     = (RejectedWith "TypeError [ERR_INVALID_ARG_TYPE]", [])
  /\ updateFile read_only_host example_evaldown example_prepared []
     = (RejectedWith "InplaceFileError: EACCES", [])
  /\ (exists e0, "InplaceFileError: EACCES" = InplaceFileError read_only_host e0).
Proof.
  split; [reflexivity|]. split.
  - exact (proj1 (write_errors_are_wrapped read_only_host example_evaldown
                    example_prepared [] [] "TargetFileError: EACCES")
             eq_refl eq_refl).
  - split.
    + exact (proj1 (proj2 (write_errors_are_wrapped example_host
                             numbered_target_evaldown example_prepared [] []
                             "")) eq_refl).
    + split; [reflexivity|].
      exact (proj2 (proj2 (write_errors_are_wrapped read_only_host
                             example_evaldown example_prepared [] []
                             "InplaceFileError: EACCES")) eq_refl).
Defined.

(** An instance built without a source path fails on the first file with
    the TypeError. *)
Lemma processFile_failures_witness :
  processFile example_host pathless_evaldown "a.md" []
  = (RejectedWith "TypeError [ERR_INVALID_ARG_TYPE]", [])
  /\ ((is_string (sourcePath pathless_evaldown) = false
       /\ "TypeError [ERR_INVALID_ARG_TYPE]"
          = invalid_path example_host (sourcePath pathless_evaldown))
      \/ (exists dir e0 w0,
             sourcePath pathless_evaldown = JS.Str dir
             /\ fs_readFile example_host (path_join example_host dir "a.md") []
                = (RejectedWith e0, w0)
             /\ "TypeError [ERR_INVALID_ARG_TYPE]"
                = SourceFileError example_host e0)
      \/ (is_string (targetPath pathless_evaldown) = false
          /\ "TypeError [ERR_INVALID_ARG_TYPE]"
             = invalid_path example_host (targetPath pathless_evaldown))
      \/ (exists e0, "TypeError [ERR_INVALID_ARG_TYPE]"
                     = TargetFileError example_host e0)
      \/ (exists e0, "TypeError [ERR_INVALID_ARG_TYPE]"
                     = InplaceFileError example_host e0)
      \/ (exists content pwd w0 w1,
             makeOutputForContent example_host pathless_evaldown content pwd w0
             = (RejectedWith "TypeError [ERR_INVALID_ARG_TYPE]", w1))).
Proof.
  split; [reflexivity|].
  exact (processFile_failures example_host pathless_evaldown "a.md" [] []
           "TypeError [ERR_INVALID_ARG_TYPE]" eq_refl).
Defined.

(** On the read-only host in update mode the target write fails and the
    source is left alone. *)
Lemma failed_target_write_keeps_the_source_witness :
  exists p : prepared,
    prepareFile read_only_host updating_evaldown "a.md" [] = (Fulfilled p, [])
    /\ writeFile read_only_host updating_evaldown p []
       = (RejectedWith "TargetFileError: EACCES", [])
    /\ processFile read_only_host updating_evaldown "a.md" []
       = (RejectedWith "TargetFileError: EACCES", []).
Proof.
  eexists. split; [reflexivity|]. split; [reflexivity|].
  exact (proj1 (failed_target_write_keeps_the_source
                  read_only_host updating_evaldown "a.md" [] [] [] _
                  "TargetFileError: EACCES" eq_refl eq_refl eq_refl)).
Defined.

(** The instance without a source path; the unreadable file; a readable
    file on the host whose evaluation fails. *)
Lemma processFile_stops_at_first_failure_witness :
  processFile example_host pathless_evaldown "a.md" []
  = (RejectedWith "TypeError [ERR_INVALID_ARG_TYPE]", [])
  /\ processFile example_host example_evaldown "missing.md" []
     = (RejectedWith "SourceFileError: ENOENT", [])
  /\ processFile failing_evaluation_host example_evaldown "a.md" []
     = (RejectedWith "FileEvaluationError", []).
Proof.
  split; [|split].
  - exact (proj1 (processFile_stops_at_first_failure
                    example_host pathless_evaldown "a.md" "" [] [] []
                    "" "") eq_refl).
  - exact (proj1 (proj2 (processFile_stops_at_first_failure
                           example_host example_evaldown "missing.md" "docs"
                           [] [] [] "ENOENT" "")) eq_refl eq_refl).
  - exact (proj2 (proj2 (processFile_stops_at_first_failure
                           failing_evaluation_host example_evaldown "a.md"
                           "docs" [] [] [] "FileEvaluationError" "# title"))
             eq_refl eq_refl eq_refl).
Defined.


End EvaldownProcessingFacts.
